(** * FileUploadSDK: the file-intake widget of [src/file-upload-sdk.js]

    A shallow embedding of the class [FileUploadSDK]: the constructor, the
    public operations [getFiles], [clearFiles], [addFiles], [removeFile], the
    private helpers they call, and the [FileReader] continuations installed by
    [_createPreview].

    Conventions of the embedding.
    - JavaScript numbers that the widget handles are integer valued (file
      sizes, [maxFiles], [maxSizeMB]) and are modelled in [Z]; on those values
      the double-precision operations of the source ([* 1024 * 1024],
      [/ 1024 / 1024], comparisons) are exact.
    - Strings are byte strings; their lengths and characters are those of the
      JavaScript strings on ASCII text.
    - A method runs to a [Completion]: it returns normally or throws.
    - The host callbacks ([onFileAdded], [onFileRemoved], [onValidationFail])
      are modelled by the trace of their invocations.
    - The preview area is a list of references into a store of the preview
      containers that [_createPreview] has created; a container that has been
      removed from the preview area stays in the store, where the closure of
      its [FileReader] still reaches it. *)

From stdpp Require Import base list strings pretty.
From Stdlib Require Import ZArith Ascii String Lia.

Open Scope string_scope.
Open Scope Z_scope.

(** ** JavaScript values and built-ins used by the widget *)

Module Js.

(** What a thrown exception carries. *)
Inductive Exception : Type :=
| Error (message : string)
| TypeError (message : string)
| SyntaxError (message : string).

(** The outcome of running a method: a normal return or a throw. *)
Inductive Completion (A : Type) : Type :=
| Normal (a : A)
| Throw (e : Exception).
Arguments Normal {A} a.
Arguments Throw {A} e.

Definition bind {A B} (c : Completion A) (k : A -> Completion B) : Completion B :=
  match c with
  | Normal a => k a
  | Throw e => Throw e
  end.

Definition isThrow {A} (c : Completion A) : bool :=
  match c with Normal _ => false | Throw _ => true end.

(** A numeric option of the configuration object: a number, or one of the
    values a caller can leave or put in its place.  [NumNaN], [NumNull],
    [NumFalse], [NumEmptyString] and the absent property are the falsy
    non-numbers; [Num 0] is the falsy number. *)
Inductive NumOption : Type :=
| NumAbsent
| NumNull
| NumNaN
| NumFalse
| NumEmptyString
| Num (z : Z).

(** [ToBoolean] on a numeric option. *)
Definition truthyNum (v : NumOption) : bool :=
  match v with
  | Num z => negb (z =? 0)
  | _ => false
  end.

(** [v || d] where [d] is a number. *)
Definition numOr (v : NumOption) (d : Z) : Z :=
  match v with
  | Num z => if z =? 0 then d else z
  | _ => d
  end.

(** [ToBoolean] on an optional string, and [v || d]. *)
Definition truthyStr (v : option string) : bool :=
  match v with
  | Some s => negb (String.eqb s "")
  | None => false
  end.

Definition strOr (v : option string) (d : string) : string :=
  if truthyStr v then default d v else d.

(** The integers that a JS number holds exactly and that
    [Number::toString] prints digit by digit, all their digits included:
    those below [2 ^ 53] in absolute value. *)
Definition isSafeInteger (z : Z) : bool := Z.abs z <? 2 ^ 53.

(** [Number::toString] on a safe integer.  Beyond them the digits that JS
    prints are those of the nearest number it can hold, and from [1e21] on it
    prints an exponent; the widget's limits are far below. *)
Definition numberToString (z : Z) : string := pretty z.

(** The character of a decimal digit. *)
Definition digit (d : Z) : ascii := pretty_N_char (Z.to_N d).

(** [x.toFixed(2)] for [x = size / 1024 / 1024].  [toFixed] picks the
    integer [n] for which [n / 100 - x] is closest to zero, the larger one
    on a tie, and prints [n] with a point before its last two digits. *)
Definition hundredths (size : Z) : Z := (200 * size + 2 ^ 20) / 2 ^ 21.

Definition padTo3 (m : string) : string :=
  String.concat "" (replicate (3 - String.length m)%nat "0") +:+ m.

Definition pointBeforeLastTwo (m : string) : string :=
  let k := String.length m in
  substring 0 (k - 2) m +:+ "." +:+ substring (k - 2) 2 m.

Definition toFixed2Pos (size : Z) : string :=
  pointBeforeLastTwo (padTo3 (numberToString (hundredths size))).

Definition mbToFixed2 (size : Z) : string :=
  if size <? 0 then "-" +:+ toFixed2Pos (- size) else toFixed2Pos size.

(** [s.replace(pat, rep)] with a string pattern: the first occurrence only.
    The replacements used by the widget are printed integers, which carry no
    [$] pattern. *)
Fixpoint replaceFirst (pat rep s : string) : string :=
  if String.prefix pat s then rep +:+ substring (String.length pat) (String.length s) s
  else match s with
       | EmptyString => EmptyString
       | String c s' => String c (replaceFirst pat rep s')
       end.

(** [s.split(sep)] for a one-character separator. *)
Fixpoint splitAcc (sep : ascii) (cur : string) (s : string) : list string :=
  match s with
  | EmptyString => [cur]
  | String c s' =>
      if Ascii.eqb c sep then cur :: splitAcc sep EmptyString s'
      else splitAcc sep (cur +:+ String c EmptyString) s'
  end.

Definition split (sep : ascii) (s : string) : list string :=
  splitAcc sep EmptyString s.

(** The text holds ASCII characters only: each of its characters is one
    UTF-16 code unit of the JS string, so that [length], [substring] and
    [toUpperCase] below count and map what JS counts and maps. *)
Definition isAsciiChar (c : ascii) : bool := (nat_of_ascii c <? 128)%nat.

Fixpoint isAscii (s : string) : bool :=
  match s with
  | EmptyString => true
  | String c s' => isAsciiChar c && isAscii s'
  end.

(** [s.toUpperCase()] on ASCII text: the letters [a] to [z] are the only
    characters it changes. *)
Definition upperAscii (c : ascii) : ascii :=
  let n := nat_of_ascii c in
  if ((97 <=? n) && (n <=? 122))%nat then ascii_of_nat (n - 32) else c.

Fixpoint toUpperCase (s : string) : string :=
  match s with
  | EmptyString => EmptyString
  | String c s' => String (upperAscii c) (toUpperCase s')
  end.

(** [xs.includes(x)] on strings. *)
Definition includes (xs : list string) (x : string) : bool :=
  existsb (String.eqb x) xs.

End Js.

(** ** The selector that [removeFile] hands to [querySelector]

    [removeFile] builds its selector by interpolating the file name, as it is,
    between the quotes of an attribute selector.  [classify] reads that text
    the way the CSS tokenizer does, for the part of the syntax that settles
    the outcome on its own:
    - [ByValue v]: the quoted string closes on the template's own quote and
      the bracket follows; the selector is valid and selects the preview items
      whose [data-file-name] is [v];
    - [Invalid]: the text is not a selector ([querySelector] throws a
      [SyntaxError]): a line break inside the string, or a string that closes
      early and is followed by a token that can neither end the attribute
      selector nor be its modifier;
    - [Other]: anything else (escapes, early close followed by a bracket,
      white space, a modifier or a comment), left to the browser. *)

Module Selector.

Inductive Lookup : Type :=
| ByValue (v : string)
| Invalid
| Other.

Definition dquote : ascii := "034"%char.
Definition backslash : ascii := "092"%char.

Definition isNewline (c : ascii) : bool :=
  Ascii.eqb c "010" || Ascii.eqb c "012" || Ascii.eqb c "013".

Definition needsBrowser (c : ascii) : bool :=
  Ascii.eqb c backslash || Ascii.eqb c "000".

(** The characters that may follow the closing quote in a valid attribute
    selector: white space, the closing bracket, a modifier ([i], [s]), or the
    start of an escape or of a comment. *)
Definition mayFollowValue (c : ascii) : bool :=
  Ascii.eqb c " " || Ascii.eqb c "009" || isNewline c || Ascii.eqb c "]"
  || Ascii.eqb c "i" || Ascii.eqb c "I" || Ascii.eqb c "s" || Ascii.eqb c "S"
  || Ascii.eqb c backslash || Ascii.eqb c "/".

Definition afterString (rest : string) (v : string) : Lookup :=
  match rest with
  | EmptyString => Other
  | String d rest' =>
      if Ascii.eqb d "]" && String.eqb rest' "" then ByValue v
      else if mayFollowValue d then Other
      else Invalid
  end.

Fixpoint scanString (s : string) (acc : string) : Lookup :=
  match s with
  | EmptyString => Other
  | String c s' =>
      if Ascii.eqb c dquote then afterString s' acc
      else if isNewline c then Invalid
      else if needsBrowser c then Other
      else scanString s' (acc +:+ String c EmptyString)
  end.

Fixpoint stripPrefix (pre s : string) : option string :=
  match pre, s with
  | EmptyString, _ => Some s
  | String a pre', String b s' => if Ascii.eqb a b then stripPrefix pre' s' else None
  | String _ _, EmptyString => None
  end.

Definition attrOpen : string :=
  ".file-upload-sdk-preview-item[data-file-name=" +:+ String dquote EmptyString.

Definition attrClose : string := String dquote "]".

Definition classify (selector : string) : Lookup :=
  match stripPrefix attrOpen selector with
  | Some s => scanString s EmptyString
  | None => Other
  end.

(** A name none of whose characters changes how the selector reads: no double
    quote, no line break, no backslash, no NUL. *)
Definition plainChar (c : ascii) : bool :=
  negb (Ascii.eqb c dquote || isNewline c || needsBrowser c).

Fixpoint plainName (s : string) : bool :=
  match s with
  | EmptyString => true
  | String c s' => plainChar c && plainName s'
  end.

End Selector.

(** ** The widget *)

Module FileUploadSDK.

Import Js.

(** A [File] as the widget reads it. *)
Record File : Type := mkFile {
  name : string;
  size : Z;
  type : string
}.

(** The [config] argument of the constructor: every property may be absent. *)
Module Options.

Record Labels : Type := mkLabels {
  dropText : option string;
  helpText : option string
}.

Record Icons : Type := mkIcons {
  uploadIcon : option string;
  pdfIcon : option string
}.

Record t : Type := mk {
  containerId : option string;
  maxFiles : NumOption;
  inputName : option string;
  maxSizeMB : NumOption;
  allowedTypes : option (list string);
  labels : option Labels;
  icons : option Icons
}.

End Options.

(** [this.config], once the defaults are in.  The SVG markup returned by
    [_getDefaultUploadIcon] is not spelled out: [uploadIcon] is the caller's
    icon, or [None] for the default one. *)
Record Labels : Type := mkLabels {
  dropText : string;
  helpText : string
}.

Record Icons : Type := mkIcons {
  uploadIcon : option string;
  pdfIcon : string
}.

Record Config : Type := mkConfig {
  maxFiles : Z;
  inputName : string;
  maxSizeMB : Z;
  allowedTypes : list string;
  labels : Labels;
  icons : Icons
}.

(** One invocation of a host callback. *)
Inductive Notification : Type :=
| onFileAdded (file : File)
| onFileRemoved (fileName : string)
| onValidationFail (error : string).

(** What [_createPreview] and the reader handlers put in a preview container. *)
Inductive Child : Type :=
| RemoveBtn (title : string)
| PdfIcon (textContent : string)
| FileNameSpan (textContent title : string)
| Img (src : option string) (alt title : string)
| TextNode (textContent : string).

Record PreviewItem : Type := mkPreviewItem {
  dataFileName : string;
  classList : list string;
  children : list Child
}.

(** How a [FileReader] ends: [reader.result] after a load, or an error. *)
Inductive ReadResult : Type :=
| Loaded (dataUrl : string)
| Failed.

(** The instance.  [elements] is the store of the preview containers created
    so far, a container being named by its position; [previewArea] lists the
    containers attached to the preview area, in document order; [readers]
    lists the containers whose [FileReader] has not ended yet, with the file
    it reads; [calls] is the trace of the callbacks, latest last. *)
Record Widget : Type := mkWidget {
  config : Config;
  selectedFiles : list File;
  previewArea : list nat;
  elements : list PreviewItem;
  readers : list (nat * File);
  calls : list Notification
}.

Definition setSelectedFiles (fs : list File) (w : Widget) : Widget :=
  mkWidget (config w) fs (previewArea w) (elements w) (readers w) (calls w).

Definition setPreviewArea (a : list nat) (w : Widget) : Widget :=
  mkWidget (config w) (selectedFiles w) a (elements w) (readers w) (calls w).

Definition setElements (es : list PreviewItem) (w : Widget) : Widget :=
  mkWidget (config w) (selectedFiles w) (previewArea w) es (readers w) (calls w).

Definition setReaders (rs : list (nat * File)) (w : Widget) : Widget :=
  mkWidget (config w) (selectedFiles w) (previewArea w) (elements w) rs (calls w).

Definition call (n : Notification) (w : Widget) : Widget :=
  mkWidget (config w) (selectedFiles w) (previewArea w) (elements w) (readers w)
           (calls w ++ [n]).

(** The widget right after construction: no file, no preview, no reader, no
    callback invoked yet. *)
Definition fresh (cfg : Config) : Widget := mkWidget cfg [] [] [] [] [].

(** *** Text helpers *)

Definition typeMap : list (string * string) :=
  [("image/jpeg", "JPG"); ("image/png", "PNG"); ("image/gif", "GIF");
   ("image/webp", "WEBP"); ("application/pdf", "PDF"); ("image/svg+xml", "SVG")].

Fixpoint typeMapLookup (m : list (string * string)) (k : string) : option string :=
  match m with
  | [] => None
  | (k', v) :: m' => if String.eqb k k' then Some v else typeMapLookup m' k
  end.

(** [typeMap[type] || type.split('/')[1]?.toUpperCase() || type].
    [typeMapLookup] reads the own properties of [typeMap]: a [type] that is
    the name of a property inherited from [Object.prototype] ([constructor],
    [toString], ...; none holds a slash) is outside this definition, and so
    is a subtype with characters beyond ASCII. *)
Definition typeLabel (type : string) : string :=
  match typeMapLookup typeMap type with
  | Some v => v
  | None =>
      match split "/" type !! 1%nat with
      | Some sub => if String.eqb (toUpperCase sub) "" then type else toUpperCase sub
      | None => type
      end
  end.

(** The body of [_getAllowedTypesString] once [this.config] has been read. *)
Definition allowedTypesText (allowedTypes : list string) : string :=
  let types := map typeLabel allowedTypes in
  match types with
  | [] => ""
  | _ => String.concat ", " types +:+ " only"
  end.

(** [_getAllowedTypesString] reads [this.config.allowedTypes]; [this_config]
    is [None] as long as [this.config] has not been assigned. *)
Definition _getAllowedTypesString (this_config : option Config) : Completion string :=
  match this_config with
  | None => Throw (TypeError "Cannot read properties of undefined (reading 'allowedTypes')")
  | Some c => Normal (allowedTypesText (allowedTypes c))
  end.

Definition lastSegment (segs : list string) : string :=
  List.last segs "".

(** [_truncateFilename(filename)] with the default [maxLength = 15], for a
    name of ASCII characters, whose [length] is its number of characters. *)
Definition _truncateFilename (filename : string) : string :=
  let maxLength := 15%nat in
  if (String.length filename <=? maxLength)%nat then filename
  else
    let extension := lastSegment (split "." filename) in
    let nameWithoutExt :=
      substring 0 (String.length filename - String.length extension - 1) filename in
    if (String.length nameWithoutExt <=? maxLength - 3)%nat then filename
    else substring 0 (maxLength - 3) nameWithoutExt +:+ "..."
         +:+ (if String.eqb extension "" then "" else "." +:+ extension).

(** *** Construction *)

Definition defaultAllowedTypes : list string :=
  ["image/jpeg"; "image/png"; "image/gif"; "image/webp"; "application/pdf"; "image/svg+xml"].

Definition defaultPdfIcon : string := "📄".

(** [config.labels && config.labels.helpText], and the same for the others. *)
Definition optHelpText (o : Options.t) : option string :=
  match Options.labels o with Some l => Options.helpText l | None => None end.

Definition optDropText (o : Options.t) : option string :=
  match Options.labels o with Some l => Options.dropText l | None => None end.

Definition optUploadIcon (o : Options.t) : option string :=
  match Options.icons o with Some i => Options.uploadIcon i | None => None end.

Definition optPdfIcon (o : Options.t) : option string :=
  match Options.icons o with Some i => Options.pdfIcon i | None => None end.

(** [new FileUploadSDK(config)] in a document whose elements carry the ids
    [document].  The object literal assigned to [this.config] is evaluated
    property by property while [this.config] is still unassigned, which is
    what the call [this._getAllowedTypesString(config.allowedTypes)] in the
    default help text then reads.  [_renderUI] leaves an empty preview area;
    [_setupEventListeners] installs the listeners that [drop] and
    [inputChange] below stand for. *)
Definition constructor (document : list string) (config : Options.t) : Completion Widget :=
  if negb (truthyStr (Options.containerId config)) then
    Throw (Error "FileUploadSDK: containerId is required")
  else
    let id := default "" (Options.containerId config) in
    if negb (includes document id) then
      Throw (Error ("FileUploadSDK: Element with ID '" +:+ id +:+ "' not found"))
    else
      let this_config : option Config := None in
      let maxFiles' := numOr (Options.maxFiles config) 10 in
      let inputName' := strOr (Options.inputName config) "files[]" in
      let maxSizeMB' := numOr (Options.maxSizeMB config) 5 in
      let allowedTypes' := default defaultAllowedTypes (Options.allowedTypes config) in
      let dropText' := strOr (optDropText config) "Upload or drag and drop here" in
      bind (if truthyStr (optHelpText config) then Normal (default "" (optHelpText config))
            else bind (_getAllowedTypesString this_config) (fun s =>
                   Normal ("Max {maxFiles} files, size {maxSize}MB each. " +:+ s)))
           (fun helpText' =>
      let uploadIcon' := if truthyStr (optUploadIcon config) then optUploadIcon config else None in
      let pdfIcon' := strOr (optPdfIcon config) defaultPdfIcon in
      let helpText'' :=
        replaceFirst "{maxSize}" (numberToString maxSizeMB')
          (replaceFirst "{maxFiles}" (numberToString maxFiles') helpText') in
      Normal (mkWidget
                (mkConfig maxFiles' inputName' maxSizeMB' allowedTypes'
                          (mkLabels dropText' helpText'')
                          (mkIcons uploadIcon' pdfIcon'))
                [] [] [] [] [])).

(** [config] with its [maxFiles], or its [maxSizeMB], set to [v]. *)
Definition withMaxFiles (v : NumOption) (o : Options.t) : Options.t :=
  Options.mk (Options.containerId o) v (Options.inputName o) (Options.maxSizeMB o)
             (Options.allowedTypes o) (Options.labels o) (Options.icons o).

Definition withMaxSizeMB (v : NumOption) (o : Options.t) : Options.t :=
  Options.mk (Options.containerId o) (Options.maxFiles o) (Options.inputName o) v
             (Options.allowedTypes o) (Options.labels o) (Options.icons o).

(** *** Intake *)

Local Open Scope list_scope.

(** [_validateFile(file)]: the error message, or [None] for [null]. *)
Definition _validateFile (cfg : Config) (file : File) : option string :=
  if negb (includes (allowedTypes cfg) (type file)) then
    Some ("File type not allowed: " +:+ name file +:+ " ("
          +:+ strOr (Some (type file)) "unknown" +:+ "). "
          +:+ allowedTypesText (allowedTypes cfg) +:+ ".")
  else
    let maxSizeBytes := maxSizeMB cfg * 1024 * 1024 in
    if size file >? maxSizeBytes then
      Some ("File is too large: " +:+ name file +:+ " (" +:+ mbToFixed2 (size file)
            +:+ " MB). Maximum size is " +:+ numberToString (maxSizeMB cfg) +:+ " MB.")
    else None.

(** [_createPreview(file)]: a new container, attached at the end of the
    preview area; for anything but a PDF a [FileReader] is started, whose
    handlers keep the container and the file. *)
Definition _createPreview (file : File) (w : Widget) : Widget :=
  let previewContainer := List.length (elements w) in
  let removeBtn := RemoveBtn ("Remove " +:+ name file) in
  let item :=
    if String.eqb (type file) "application/pdf" then
      mkPreviewItem (name file)
        ["file-upload-sdk-preview-item"; "file-upload-sdk-pdf-preview"]
        [PdfIcon (pdfIcon (icons (config w)));
         FileNameSpan (_truncateFilename (name file)) (name file);
         removeBtn]
    else
      mkPreviewItem (name file) ["file-upload-sdk-preview-item"] [removeBtn] in
  let readers' :=
    if String.eqb (type file) "application/pdf" then readers w
    else readers w ++ [(previewContainer, file)] in
  setPreviewArea (previewArea w ++ [previewContainer])
    (setElements (elements w ++ [item]) (setReaders readers' w)).

(** [f.name === file.name && f.size === file.size] *)
Definition sameNameAndSize (file f : File) : bool :=
  String.eqb (name f) (name file) && (size f =? size file).

(** The body of the [forEach] in [_handleFiles]. *)
Definition handleFile (file : File) (w : Widget) : Widget :=
  if Z.of_nat (List.length (selectedFiles w)) >=? maxFiles (config w) then
    call (onValidationFail
            ("Maximum number of files (" +:+ numberToString (maxFiles (config w))
             +:+ ") reached.")) w
  else
    let validationError := _validateFile (config w) file in
    if truthyStr validationError then
      call (onValidationFail (default "" validationError)) w
    else if existsb (sameNameAndSize file) (selectedFiles w) then
      w
    else
      call (onFileAdded file)
        (_createPreview file (setSelectedFiles (selectedFiles w ++ [file]) w)).

Definition _handleFiles (files : list File) (w : Widget) : Widget :=
  fold_left (fun w file => handleFile file w) files w.

Definition addFiles (files : list File) (w : Widget) : Widget := _handleFiles files w.

(** The [drop] and [change] listeners. *)
Definition drop (files : list File) (w : Widget) : Widget := _handleFiles files w.

Definition inputChange (files : list File) (w : Widget) : Widget := _handleFiles files w.

Definition getFiles (w : Widget) : list File := selectedFiles w.

Definition clearFiles (w : Widget) : Widget :=
  setPreviewArea [] (setSelectedFiles [] w).

(** *** The reader handlers *)

Definition appendChild (c : Child) (it : PreviewItem) : PreviewItem :=
  mkPreviewItem (dataFileName it) (classList it) (children it ++ [c]).

(** [reader.onerror] *)
Definition onerror (it : PreviewItem) : PreviewItem :=
  mkPreviewItem (dataFileName it)
    (classList it ++ ["file-upload-sdk-preview-error"])
    [TextNode "Error loading preview"].

(** [reader.onloadend]; [reader.result] is [null] after an error. *)
Definition onloadend (file : File) (result : ReadResult) (it : PreviewItem) : PreviewItem :=
  let src := match result with Loaded url => Some url | Failed => None end in
  appendChild (Img src ("Preview of " +:+ name file) (name file)) it.

Definition readerFile (previewContainer : nat) (w : Widget) : option File :=
  snd <$> List.find (fun r => Nat.eqb (fst r) previewContainer) (readers w).

(** The handlers that run when a reader ends with [result]: [error] fires
    before [loadend] after a failure. *)
Definition readerHandlers (file : File) (result : ReadResult) (it : PreviewItem)
    : PreviewItem :=
  match result with
  | Loaded _ => onloadend file result it
  | Failed => onloadend file result (onerror it)
  end.

(** The reader started for [previewContainer] ends with [result]. *)
Definition readerDone (previewContainer : nat) (result : ReadResult) (w : Widget) : Widget :=
  match readerFile previewContainer w with
  | None => w
  | Some file =>
      setElements (alter (readerHandlers file result) previewContainer (elements w))
        (setReaders (List.filter (fun r => negb (Nat.eqb (fst r) previewContainer)) (readers w)) w)
  end.

(** What the preview area shows: the attached containers, in order. *)
Definition rendered (w : Widget) : list PreviewItem :=
  omap (fun nid => elements w !! nid) (previewArea w).

(** Every pending reader holds a container of the store. *)
Definition readersInStore (w : Widget) : Prop :=
  Forall (fun r => (fst r < List.length (elements w))%nat) (readers w).

(** *** Removal *)

(** What [querySelector] gives on the preview area: [null], a preview
    container, an element inside a container (its [k]-th child: a button, an
    icon, a label or an image, which a selector that the name has extended
    can match), or a [SyntaxError]. *)
Inductive QueryResult : Type :=
| QNull
| QElement (nid : nat)
| QChild (nid : nat) (k : nat)
| QSyntaxError.

(** [child.remove()] for the [k]-th child of a container. *)
Definition removeChild (k : nat) (it : PreviewItem) : PreviewItem :=
  mkPreviewItem (dataFileName it) (classList it) (delete k (children it)).

(** The container [nid] carries [data-file-name = v]. *)
Definition hasFileName (w : Widget) (v : string) (nid : nat) : bool :=
  match elements w !! nid with
  | Some it => String.eqb (dataFileName it) v
  | None => false
  end.

(** What [removeFile] does to the preview area when its selector reads as
    the plain attribute test: the first attached container that carries the
    name is detached. *)
Definition detachFirst (fileName : string) (w : Widget) : Widget :=
  match List.find (hasFileName w fileName) (previewArea w) with
  | Some fileElement =>
      setPreviewArea
        (List.filter (fun nid => negb (Nat.eqb nid fileElement)) (previewArea w)) w
  | None => w
  end.

Section WithBrowser.

(** The browser's answer to the selectors that [Selector.classify] leaves
    open; nothing is assumed about it. *)
Variable browserQuery : string -> list nat -> list PreviewItem -> QueryResult.

(** [this.previewArea.querySelector(selector)] *)
Definition querySelector (selector : string) (w : Widget) : QueryResult :=
  match Selector.classify selector with
  | Selector.ByValue v =>
      match List.find (hasFileName w v) (previewArea w) with
      | Some nid => QElement nid
      | None => QNull
      end
  | Selector.Invalid => QSyntaxError
  | Selector.Other => browserQuery selector (previewArea w) (elements w)
  end.

Definition previewItemSelector (fileName : string) : string :=
  Selector.attrOpen +:+ fileName +:+ Selector.attrClose.

(** [removeFile(fileName)]: the widget it leaves, and how the call ends.
    What [querySelector] throws is a [SyntaxError]; the wording of its
    message is the browser's own and nothing depends on it. *)
Definition removeFile (fileName : string) (w : Widget) : Widget * Completion bool :=
  let initialLength := List.length (selectedFiles w) in
  let w1 :=
    setSelectedFiles
      (List.filter (fun file => negb (String.eqb (name file) fileName)) (selectedFiles w)) w in
  match querySelector (previewItemSelector fileName) w1 with
  | QSyntaxError =>
      (w1, Throw (SyntaxError ("'" +:+ previewItemSelector fileName +:+ "' is not a valid selector")))
  | q =>
      let w2 :=
        match q with
        | QElement fileElement =>
            setPreviewArea
              (List.filter (fun nid => negb (Nat.eqb nid fileElement)) (previewArea w1)) w1
        | QChild nid k => setElements (alter (removeChild k) nid (elements w1)) w1
        | _ => w1
        end in
      let wasRemoved := (List.length (selectedFiles w2) <? initialLength)%nat in
      if wasRemoved then (call (onFileRemoved fileName) w2, Normal true)
      else (w2, Normal false)
  end.

(** *** The widget as a transition system *)

Inductive Action : Type :=
| AddFiles (files : list File)
| Drop (files : list File)
| InputChange (files : list File)
| RemoveFile (fileName : string)
| ClearFiles
| ReaderDone (previewContainer : nat) (result : ReadResult).

Definition step (w : Widget) (a : Action) : Widget :=
  match a with
  | AddFiles files => addFiles files w
  | Drop files => drop files w
  | InputChange files => inputChange files w
  | RemoveFile fileName => fst (removeFile fileName w)
  | ClearFiles => clearFiles w
  | ReaderDone c r => readerDone c r w
  end.

Definition run (actions : list Action) (w : Widget) : Widget :=
  fold_left step actions w.

End WithBrowser.

End FileUploadSDK.

(** ** The admission policy as the specification words it

    Section 4.1 of the specification: four checks in a fixed order, the first
    failing one decides; a duplicate is skipped without a report. *)

Module Policy.

Import Js FileUploadSDK.

Local Open Scope list_scope.

Inductive Check : Type :=
| Capacity
| TypeCheck
| SizeCheck
| DuplicateCheck.

Definition order : list Check := [Capacity; TypeCheck; SizeCheck; DuplicateCheck].

Inductive ValidationResult : Type :=
| Accepted
| Rejected (reason : string)
| DuplicateSkip.

Definition fails (policy : Config) (registry : list File) (candidate : File)
    (c : Check) : bool :=
  match c with
  | Capacity => maxFiles policy <=? Z.of_nat (List.length registry)
  | TypeCheck => negb (existsb (String.eqb (type candidate)) (allowedTypes policy))
  | SizeCheck => maxSizeMB policy * 1024 * 1024 <? size candidate
  | DuplicateCheck =>
      existsb (fun e => String.eqb (name e) (name candidate) && (size e =? size candidate))
              registry
  end.

Definition reason (policy : Config) (candidate : File) (c : Check) : string :=
  match c with
  | Capacity =>
      "Maximum number of files (" +:+ numberToString (maxFiles policy) +:+ ") reached."
  | TypeCheck =>
      "File type not allowed: " +:+ name candidate +:+ " ("
      +:+ (if String.eqb (type candidate) "" then "unknown" else type candidate)
      +:+ "). " +:+ allowedTypesText (allowedTypes policy) +:+ "."
  | SizeCheck =>
      "File is too large: " +:+ name candidate +:+ " (" +:+ mbToFixed2 (size candidate)
      +:+ " MB). Maximum size is " +:+ numberToString (maxSizeMB policy) +:+ " MB."
  | DuplicateCheck => ""
  end.

Definition firstFailure (policy : Config) (registry : list File) (candidate : File)
    : option Check :=
  List.find (fails policy registry candidate) order.

Definition validate (candidate : File) (policy : Config) (registry : list File)
    : ValidationResult :=
  match firstFailure policy registry candidate with
  | None => Accepted
  | Some DuplicateCheck => DuplicateSkip
  | Some c => Rejected (reason policy candidate c)
  end.

(** The registry grows from [registry] to [registry'] by appending, one at a
    time, candidates of [files] that the policy accepts against the registry
    as it stands when they are appended. *)
Inductive Grows (policy : Config) (files : list File) : list File -> list File -> Prop :=
| grows_none registry : Grows policy files registry registry
| grows_more registry candidate registry' :
    In candidate files ->
    validate candidate policy registry = Accepted ->
    Grows policy files (registry ++ [candidate]) registry' ->
    Grows policy files registry registry'.

(** What the intake of one candidate does with the widget, per verdict. *)
Definition outcome (file : File) (w : Widget) (v : ValidationResult) : Widget :=
  match v with
  | Accepted =>
      call (onFileAdded file)
        (_createPreview file (setSelectedFiles (selectedFiles w ++ [file]) w))
  | Rejected reason => call (onValidationFail reason) w
  | DuplicateSkip => w
  end.

(** The callbacks a check that fails is reported with. *)
Definition report (policy : Config) (candidate : File) (c : Check) : list Notification :=
  match c with
  | DuplicateCheck => []
  | _ => [onValidationFail (reason policy candidate c)]
  end.

(** How one action may change the registry. *)
Definition registryStep (policy : Config) (a : Action) (registry registry' : list File)
    : Prop :=
  match a with
  | AddFiles files | Drop files | InputChange files => Grows policy files registry registry'
  | RemoveFile fileName =>
      registry' = List.filter (fun file => negb (String.eqb (name file) fileName)) registry
  | ClearFiles => registry' = []
  | ReaderDone _ _ => registry' = registry
  end.

End Policy.

(** ** Fixtures *)

Module Fixture.

Import Js FileUploadSDK.

(** A browser that finds nothing for the selectors left open. *)
Definition findsNothing : string -> list nat -> list PreviewItem -> QueryResult :=
  fun _ _ _ => QNull.

Definition policy (maxFiles maxSizeMB : Z) (allowedTypes : list string) : Config :=
  mkConfig maxFiles "files[]" maxSizeMB allowedTypes
    (mkLabels "Upload or drag and drop here" "")
    (mkIcons None defaultPdfIcon).

Definition png (name : string) (size : Z) : File := mkFile name size "image/png".

(** A file name with a double quote in it: [a], a quote, [b.png]. *)
Definition quotedName : string := "a" +:+ String Selector.dquote "b.png".

(** The configuration of the quick start of the README: only the container. *)
Definition quickStart : Options.t :=
  Options.mk (Some "my-uploader") NumAbsent None NumAbsent None None None.

(** The configuration of the demo page, which gives the help text. *)
Definition demo : Options.t :=
  Options.mk (Some "uploader") (Num 5) None (Num 2)
    (Some ["image/jpeg"; "image/png"; "image/gif"; "application/pdf"])
    (Some (Options.mkLabels (Some "Drop files here or click to browse")
                            (Some "Upload up to {maxFiles} files (max {maxSize}MB each)")))
    None.

(** The policy of the scenario of the specification: two files, 1 MB, PNG. *)
Definition scenario : Config := policy 2 1 ["image/png"].

Definition dataUrl : string := "data:image/png;base64,iVBORw0KGgo=".

End Fixture.

(** ** Vocabulary for the properties of the intake and of the preview area *)

Module Registry.

Import Js FileUploadSDK.

Local Open Scope list_scope.

(** What the duplicate check compares. *)
Definition key (f : File) : string * Z := (name f, size f).

(** The file passes the type and size checks of [_validateFile]. *)
Definition passes (cfg : Config) (f : File) : Prop :=
  includes (allowedTypes cfg) (type f) = true /\ size f <= maxSizeMB cfg * 1024 * 1024.

(** A sound registry: no two entries with the same name and size, and every
    entry passes the type and size checks. *)
Definition sound (cfg : Config) (registry : list File) : Prop :=
  List.NoDup (map key registry) /\ Forall (passes cfg) registry.

(** The registry that the intake of one candidate leaves, read off
    [handleFile]: it depends on the configuration and the registry only. *)
Definition enter (cfg : Config) (registry : list File) (file : File) : list File :=
  if Z.of_nat (List.length registry) >=? maxFiles cfg then registry
  else if truthyStr (_validateFile cfg file) then registry
  else if existsb (sameNameAndSize file) registry then registry
  else registry ++ [file].

(** The candidate cannot enter the registry: it is full, or the candidate
    fails a check, or an entry has its name and size. *)
Definition stuck (cfg : Config) (registry : list File) (file : File) : bool :=
  ((Z.of_nat (List.length registry) >=? maxFiles cfg)
   || truthyStr (_validateFile cfg file))
  || existsb (sameNameAndSize file) registry.

(** The files that [onFileAdded] was called with, and the names that
    [onFileRemoved] was called with, oldest first. *)
Definition addedFiles (cs : list Notification) : list File :=
  omap (fun n => match n with onFileAdded f => Some f | _ => None end) cs.

Definition removedNames (cs : list Notification) : list string :=
  omap (fun n => match n with onFileRemoved s => Some s | _ => None end) cs.

(** The candidates an action offers, and whether the name it removes, if
    any, is plain. *)
Definition offered (a : Action) : list File :=
  match a with
  | AddFiles files | Drop files | InputChange files => files
  | _ => []
  end.

Definition plainRemoval (a : Action) : bool :=
  match a with
  | RemoveFile fileName => Selector.plainName fileName
  | _ => true
  end.

(** Among [files], the name tells the size. *)
Definition nameTellsSize (files : list File) : Prop :=
  forall f g, In f files -> In g files -> name f = name g -> size f = size g.

(** The [data-file-name] of the attached containers, in document order. *)
Definition shownNames (w : Widget) : list string := dataFileName <$> rendered w.

(** Every registry entry has an attached container that carries its name. *)
Definition everyEntryShown (w : Widget) : Prop :=
  forall f, In f (selectedFiles w) ->
            exists nid, In nid (previewArea w) /\ hasFileName w (name f) nid = true.

(** The [data-file-name] of the containers [area] of the store [es]. *)
Definition namesOf (es : list PreviewItem) (area : list nat) : list string :=
  dataFileName <$> omap (fun nid => es !! nid) area.

(** Preview area and registry in step, for files drawn from [U]: the
    attached containers exist, they carry the names of the registry entries in
    the same order, and no name occurs twice. *)
Definition inStep (U : list File) (w : Widget) : Prop :=
  Forall (fun nid => (nid < List.length (elements w))%nat) (previewArea w)
  /\ shownNames w = map name (selectedFiles w)
  /\ List.NoDup (map name (selectedFiles w))
  /\ Forall (fun f => In f U) (selectedFiles w).

(** The character [c], followed by [tail], ends the quoted string of the
    selector in a way that leaves no selector: a line break, or a double
    quote that is last in the name or followed by a character that can
    neither close the attribute selector nor start its modifier. *)
Definition breaks (c : ascii) (tail : string) : bool :=
  if Ascii.eqb c Selector.dquote then
    match tail with
    | EmptyString => true
    | String d _ => negb (Selector.mayFollowValue d)
    end
  else Selector.isNewline c.

(** The container that [_createPreview] makes for a file that is not a PDF:
    the name of the file, the class of a preview item, and the remove
    button; the image comes when the reader ends. *)
Definition imageContainer (file : File) : PreviewItem :=
  mkPreviewItem (name file) ["file-upload-sdk-preview-item"]
    [RemoveBtn ("Remove " +:+ name file)].

(** In the state [v], [handleFile] takes [file] into the registry, and the
    container that [_createPreview] makes for it is [c]: [c] is new in the
    store, it is attached last to the preview area, and the reader started
    for [file] holds [c]. *)
Definition createdFor (file : File) (c : nat) (v : Widget) : Prop :=
  c = List.length (elements v)
  /\ handleFile file v
     = call (onFileAdded file)
         (mkWidget (config v) (selectedFiles v ++ [file]) (previewArea v ++ [c])
                   (elements v ++ [imageContainer file]) (readers v ++ [(c, file)])
                   (calls v)).

(** No reader handler has run on the container [it] made for [file]: it
    carries the name of [file] and the class it was created with, and holds
    its remove button, or nothing once the button has been removed. *)
Definition awaits (file : File) (it : PreviewItem) : Prop :=
  dataFileName it = name file
  /\ classList it = classList (imageContainer file)
  /\ sublist (children it) (children (imageContainer file)).

(** Every pending reader holds a container that awaits its file. *)
Definition readersAwait (w : Widget) : Prop :=
  Forall (fun r => exists it, elements w !! fst r = Some it /\ awaits (snd r) it) (readers w).

(** The character [c] occurs in [s]. *)
Fixpoint occurs (c : ascii) (s : string) : bool :=
  match s with
  | EmptyString => false
  | String x s' => Ascii.eqb x c || occurs c s'
  end.

End Registry.

(** ** Proofs *)

Import Js FileUploadSDK.

Local Open Scope list_scope.

(** Closes a conjunction of closed equations by evaluating both sides. *)
Ltac by_evaluation := intros; cbv zeta; repeat apply conj; vm_compute; reflexivity.

(** *** The state accessors under the setters *)

Lemma selectedFiles_call n w : selectedFiles (call n w) = selectedFiles w.
Proof. reflexivity. Qed.

Lemma calls_call n w : calls (call n w) = calls w ++ [n].
Proof. reflexivity. Qed.

Lemma selectedFiles_createPreview file w :
  selectedFiles (_createPreview file w) = selectedFiles w.
Proof. reflexivity. Qed.

Lemma calls_createPreview file w : calls (_createPreview file w) = calls w.
Proof. reflexivity. Qed.

Lemma config_createPreview file w : config (_createPreview file w) = config w.
Proof. reflexivity. Qed.

(** *** [handleFile] against the policy of the specification *)

Lemma validateFile_policy cfg file :
  _validateFile cfg file =
    if Policy.fails cfg [] file Policy.TypeCheck
    then Some (Policy.reason cfg file Policy.TypeCheck)
    else if Policy.fails cfg [] file Policy.SizeCheck
         then Some (Policy.reason cfg file Policy.SizeCheck)
         else None.
Proof.
  unfold _validateFile, Policy.fails, Policy.reason, includes, strOr, truthyStr.
  destruct (existsb _ _); simpl.
  - rewrite Z.gtb_ltb. reflexivity.
  - destruct (String.eqb (type file) ""); reflexivity.
Qed.

Lemma reason_truthy cfg file c :
  c <> Policy.DuplicateCheck -> truthyStr (Some (Policy.reason cfg file c)) = true.
Proof. destruct c; simpl; congruence. Qed.

Lemma handleFile_outcome file w :
  handleFile file w = Policy.outcome file w (Policy.validate file (config w) (selectedFiles w)).
Proof.
  unfold handleFile, Policy.validate, Policy.firstFailure, Policy.order.
  cbn [List.find].
  rewrite Z.geb_leb.
  change (Policy.fails (config w) (selectedFiles w) file Policy.Capacity)
    with (maxFiles (config w) <=? Z.of_nat (List.length (selectedFiles w))).
  destruct (maxFiles (config w) <=? _); [reflexivity |].
  rewrite validateFile_policy.
  change (Policy.fails (config w) (selectedFiles w) file Policy.TypeCheck)
    with (Policy.fails (config w) [] file Policy.TypeCheck).
  change (Policy.fails (config w) (selectedFiles w) file Policy.SizeCheck)
    with (Policy.fails (config w) [] file Policy.SizeCheck).
  destruct (Policy.fails (config w) [] file Policy.TypeCheck).
  { rewrite reason_truthy by discriminate. reflexivity. }
  destruct (Policy.fails (config w) [] file Policy.SizeCheck).
  { rewrite reason_truthy by discriminate. reflexivity. }
  cbn [truthyStr].
  change (Policy.fails (config w) (selectedFiles w) file Policy.DuplicateCheck)
    with (existsb (sameNameAndSize file) (selectedFiles w)).
  destruct (existsb _ _); reflexivity.
Qed.

Lemma find_first {A} (f : A -> bool) pre c post :
  Forall (fun d => f d = false) pre -> f c = true ->
  List.find f (pre ++ c :: post) = Some c.
Proof.
  induction 1 as [| d pre Hd _ IH]; intros Hc; simpl.
  - rewrite Hc. reflexivity.
  - rewrite Hd. auto.
Qed.

Lemma find_none {A} (f : A -> bool) l :
  Forall (fun d => f d = false) l -> List.find f l = None.
Proof.
  induction 1 as [| d l Hd _ IH]; simpl; [reflexivity |].
  rewrite Hd. exact IH.
Qed.

(** C2: every candidate of an intake ([addFiles], a drop, the file input)
    goes through [handleFile], whose checks run in the order capacity, type,
    size, duplicate; the first one that fails decides alone: a capacity, type or size failure is
    reported once with its own reason, a duplicate is skipped without any
    callback, and in both cases the registry is what it was; a candidate that
    fails no check is appended and reported as added. *)
Theorem admission_first_failure_wins (file : File) (w : Widget) :
  let fails := Policy.fails (config w) (selectedFiles w) file in
  (forall files,
      addFiles (file :: files) w = addFiles files (handleFile file w)
      /\ drop (file :: files) w = drop files (handleFile file w)
      /\ inputChange (file :: files) w = inputChange files (handleFile file w))
  /\ (forall pre c post,
      Policy.order = pre ++ c :: post ->
      Forall (fun d => fails d = false) pre ->
      fails c = true ->
      selectedFiles (handleFile file w) = selectedFiles w
      /\ calls (handleFile file w) = calls w ++ Policy.report (config w) file c
      /\ (c = Policy.DuplicateCheck -> handleFile file w = w))
  /\ (Forall (fun d => fails d = false) Policy.order ->
      selectedFiles (handleFile file w) = selectedFiles w ++ [file]
      /\ calls (handleFile file w) = calls w ++ [onFileAdded file]).
Proof.
  intros fails. subst fails. split; [| split].
  - intros files. repeat split; reflexivity.
  - intros pre c post Horder Hpre Hc.
    rewrite handleFile_outcome.
    unfold Policy.validate, Policy.firstFailure. rewrite Horder.
    rewrite (find_first _ pre c post Hpre Hc).
    destruct c; simpl; rewrite ?app_nil_r; repeat split; congruence.
  - intros Hall.
    rewrite handleFile_outcome.
    unfold Policy.validate, Policy.firstFailure.
    rewrite (find_none _ _ Hall). split; reflexivity.
Qed.

(** *** The registry under the operations *)

Lemma config_outcome file w v : config (Policy.outcome file w v) = config w.
Proof. destruct v; reflexivity. Qed.

Lemma config_handleFile file w : config (handleFile file w) = config w.
Proof. rewrite handleFile_outcome. apply config_outcome. Qed.

Lemma config_handleFiles files w : config (_handleFiles files w) = config w.
Proof.
  revert w. induction files as [| file files IH]; intros w; simpl; [reflexivity |].
  rewrite IH. apply config_handleFile.
Qed.

Lemma Grows_trans policy files r1 r2 r3 :
  Policy.Grows policy files r1 r2 -> Policy.Grows policy files r2 r3 ->
  Policy.Grows policy files r1 r3.
Proof.
  induction 1 as [| r candidate r' Hin Hok _ IH]; intros H23; [exact H23 |].
  eapply Policy.grows_more; eauto.
Qed.

Lemma Grows_weaken policy files files' r1 r2 :
  (forall f, In f files -> In f files') ->
  Policy.Grows policy files r1 r2 -> Policy.Grows policy files' r1 r2.
Proof.
  intros Hsub. induction 1 as [| r candidate r' Hin Hok _ IH].
  - constructor.
  - eapply Policy.grows_more; eauto.
Qed.

Lemma handleFile_grows file w :
  Policy.Grows (config w) [file] (selectedFiles w) (selectedFiles (handleFile file w)).
Proof.
  rewrite handleFile_outcome.
  destruct (Policy.validate file (config w) (selectedFiles w)) eqn:Hv; simpl.
  - eapply Policy.grows_more; [left; reflexivity | exact Hv | constructor].
  - constructor.
  - constructor.
Qed.

Lemma handleFiles_grows files w :
  Policy.Grows (config w) files (selectedFiles w) (selectedFiles (_handleFiles files w)).
Proof.
  revert w. induction files as [| file files IH]; intros w; simpl.
  - constructor.
  - eapply Grows_trans.
    + eapply Grows_weaken; [| apply handleFile_grows].
      intros f [-> | []]. left. reflexivity.
    + eapply Grows_weaken; [| rewrite <- (config_handleFile file w); apply IH].
      intros f Hf. right. exact Hf.
Qed.

Lemma accepted_has_room candidate policy registry :
  Policy.validate candidate policy registry = Policy.Accepted ->
  Z.of_nat (List.length registry) < maxFiles policy.
Proof.
  unfold Policy.validate, Policy.firstFailure, Policy.order. cbn [List.find].
  cbn [Policy.fails].
  destruct (Z.leb_spec (maxFiles policy) (Z.of_nat (List.length registry))) as [Hle | Hlt].
  - discriminate.
  - intros _. exact Hlt.
Qed.

Lemma Grows_bounded policy files r1 r2 :
  Policy.Grows policy files r1 r2 ->
  Z.of_nat (List.length r1) <= maxFiles policy ->
  Z.of_nat (List.length r2) <= maxFiles policy.
Proof.
  induction 1 as [| r candidate r' Hin Hok _ IH]; intros Hb; [exact Hb |].
  apply IH. apply accepted_has_room in Hok.
  rewrite length_app. simpl. lia.
Qed.

Lemma length_filter_le {A} (f : A -> bool) (l : list A) :
  (List.length (List.filter f l) <= List.length l)%nat.
Proof.
  induction l as [| x l IH]; simpl; [lia |].
  destruct (f x); simpl; lia.
Qed.

Section Operations.

Variable browserQuery : string -> list nat -> list PreviewItem -> QueryResult.

Lemma removeFile_registry fileName w :
  selectedFiles (fst (removeFile browserQuery fileName w)) =
    List.filter (fun file => negb (String.eqb (name file) fileName)) (selectedFiles w).
Proof.
  unfold removeFile.
  destruct (querySelector _ _ _); simpl;
    repeat match goal with |- context [if ?b then _ else _] => destruct b end;
    reflexivity.
Qed.

Lemma removeFile_config fileName w :
  config (fst (removeFile browserQuery fileName w)) = config w.
Proof.
  unfold removeFile.
  destruct (querySelector _ _ _); simpl;
    repeat match goal with |- context [if ?b then _ else _] => destruct b end;
    reflexivity.
Qed.

Lemma readerDone_registry c r w : selectedFiles (readerDone c r w) = selectedFiles w.
Proof. unfold readerDone. destruct (readerFile c w); reflexivity. Qed.

Lemma readerDone_config c r w : config (readerDone c r w) = config w.
Proof. unfold readerDone. destruct (readerFile c w); reflexivity. Qed.

Lemma step_config w a : config (step browserQuery w a) = config w.
Proof.
  destruct a; simpl; unfold addFiles, drop, inputChange;
    auto using config_handleFiles, removeFile_config, readerDone_config.
Qed.

Lemma step_registry w a :
  Policy.registryStep (config w) a (selectedFiles w) (selectedFiles (step browserQuery w a)).
Proof.
  destruct a; simpl; unfold addFiles, drop, inputChange;
    auto using handleFiles_grows, removeFile_registry, readerDone_registry.
Qed.

Lemma registryStep_bounded policy a r r' :
  Policy.registryStep policy a r r' ->
  0 <= maxFiles policy ->
  Z.of_nat (List.length r) <= maxFiles policy ->
  Z.of_nat (List.length r') <= maxFiles policy.
Proof.
  destruct a as [files | files | files | fileName | | c res]; simpl; intros H Hpos Hb;
    try (subst r'); eauto using Grows_bounded.
  - pose proof (length_filter_le (fun file => negb (String.eqb (name file) fileName)) r). lia.
Qed.

Lemma run_invariant cfg actions w :
  0 <= maxFiles cfg ->
  config w = cfg ->
  Z.of_nat (List.length (selectedFiles w)) <= maxFiles cfg ->
  config (run browserQuery actions w) = cfg
  /\ Z.of_nat (List.length (selectedFiles (run browserQuery actions w))) <= maxFiles cfg.
Proof.
  intros Hpos. revert w.
  induction actions as [| a actions IH]; intros w Hcfg Hb; simpl; [auto |].
  apply IH.
  - rewrite step_config. exact Hcfg.
  - eapply registryStep_bounded; [| exact Hpos | exact Hb].
    rewrite <- Hcfg. apply step_registry.
Qed.

(** C1: from the empty registry of a widget whose [maxFiles] is positive,
    whatever the sequence of operations (intake through [addFiles], a drop or
    the file input; [removeFile]; [clearFiles]; readers ending), the registry
    never holds more than [maxFiles] files, and each further operation changes
    it in one way only: an intake appends candidates of its batch that the
    policy accepted, [removeFile] filters it, [clearFiles] empties it, a
    reader ending leaves it alone. *)
Theorem registry_never_exceeds_maxFiles (cfg : Config) (actions : list Action) :
  0 < maxFiles cfg ->
  let w := run browserQuery actions (fresh cfg) in
  config w = cfg
  /\ Z.of_nat (List.length (selectedFiles w)) <= maxFiles cfg
  /\ forall a,
       Policy.registryStep cfg a (selectedFiles w) (selectedFiles (step browserQuery w a)).
Proof.
  intros Hpos w.
  destruct (run_invariant cfg actions (fresh cfg)) as [Hcfg Hb];
    [lia | reflexivity | simpl; lia |].
  fold w in Hcfg, Hb.
  repeat split; [exact Hcfg | exact Hb |].
  intros a. rewrite <- Hcfg at 1. apply step_registry.
Qed.

End Operations.

(** *** The selector of a plain name *)

Lemma string_app_cons (c : ascii) (s t : string) : String c s +:+ t = String c (s +:+ t).
Proof. reflexivity. Qed.

Lemma string_app_nil_r (s : string) : s +:+ "" = s.
Proof.
  induction s as [| c s IH]; [reflexivity |].
  rewrite string_app_cons, IH. reflexivity.
Qed.

Lemma string_app_assoc (a b c : string) : (a +:+ b) +:+ c = a +:+ (b +:+ c).
Proof.
  induction a as [| x a IH]; [reflexivity |].
  rewrite !string_app_cons, IH. reflexivity.
Qed.

Lemma scanString_plain (s acc : string) :
  Selector.plainName s = true ->
  Selector.scanString (s +:+ Selector.attrClose) acc = Selector.ByValue (acc +:+ s).
Proof.
  revert acc. induction s as [| c s IH]; intros acc Hplain.
  - rewrite string_app_nil_r. reflexivity.
  - simpl in Hplain. apply andb_true_iff in Hplain as [Hc Hs].
    unfold Selector.plainChar in Hc. apply negb_true_iff in Hc.
    apply orb_false_iff in Hc as [Hc Hbrowser].
    apply orb_false_iff in Hc as [Hquote Hnewline].
    rewrite string_app_cons. cbn [Selector.scanString].
    rewrite Hquote, Hnewline, Hbrowser.
    rewrite (IH _ Hs), string_app_assoc. reflexivity.
Qed.

Lemma classify_plainName (fileName : string) :
  Selector.plainName fileName = true ->
  Selector.classify (Selector.attrOpen +:+ fileName +:+ Selector.attrClose)
  = Selector.ByValue fileName.
Proof.
  intros Hplain. unfold Selector.classify.
  change (Selector.stripPrefix Selector.attrOpen
            (Selector.attrOpen +:+ fileName +:+ Selector.attrClose))
    with (Some (fileName +:+ Selector.attrClose)).
  apply scanString_plain. exact Hplain.
Qed.

Lemma shrinks_iff_named (fileName : string) (registry : list File) :
  (List.length (List.filter (fun file => negb (String.eqb (name file) fileName)) registry)
     <? List.length registry)%nat
  = existsb (fun file => String.eqb (name file) fileName) registry.
Proof.
  induction registry as [| f registry IH]; [reflexivity |].
  pose proof (length_filter_le (fun file => negb (String.eqb (name file) fileName)) registry)
    as Hle.
  cbn [List.filter existsb]. destruct (String.eqb (name f) fileName); simpl negb; cbn iota.
  - cbn [orb List.length]. apply Nat.ltb_lt. lia.
  - cbn [orb List.length]. rewrite <- IH.
    destruct (Nat.ltb_spec (List.length (List.filter (fun file => negb (String.eqb (name file) fileName)) registry)) (List.length registry));
      [apply Nat.ltb_lt | apply Nat.ltb_ge]; lia.
Qed.

Lemma filter_named_none (fileName : string) (registry : list File) :
  existsb (fun file => String.eqb (name file) fileName)
          (List.filter (fun file => negb (String.eqb (name file) fileName)) registry)
  = false.
Proof.
  induction registry as [| f registry IH]; [reflexivity |].
  cbn [List.filter]. destruct (String.eqb (name f) fileName) eqn:Hf; simpl negb; cbn iota.
  - exact IH.
  - cbn [existsb]. rewrite Hf, IH. reflexivity.
Qed.

Section Removal.

Variable browserQuery : string -> list nat -> list PreviewItem -> QueryResult.

Lemma removeFile_plain (fileName : string) (w : Widget) :
  Selector.plainName fileName = true ->
  removeFile browserQuery fileName w =
    let w2 :=
      detachFirst fileName
        (setSelectedFiles
           (List.filter (fun file => negb (String.eqb (name file) fileName)) (selectedFiles w))
           w) in
    if existsb (fun file => String.eqb (name file) fileName) (selectedFiles w)
    then (call (onFileRemoved fileName) w2, Normal true)
    else (w2, Normal false).
Proof.
  intros Hplain. unfold removeFile, querySelector, previewItemSelector, detachFirst.
  rewrite (classify_plainName fileName Hplain).
  rewrite <- shrinks_iff_named.
  destruct (List.find _ _); reflexivity.
Qed.

(** X17: for a plain name, [removeFile] answers [true] and calls
    [onFileRemoved] once exactly when the registry holds an entry of that
    name, and a second call right after answers [false]. *)
Lemma removeFile_plain_reports (fileName : string) (w : Widget) :
  Selector.plainName fileName = true ->
  let named := existsb (fun file => String.eqb (name file) fileName) (selectedFiles w) in
  let w' := fst (removeFile browserQuery fileName w) in
  snd (removeFile browserQuery fileName w) = Normal named
  /\ calls w' = calls w ++ (if named then [onFileRemoved fileName] else [])
  /\ snd (removeFile browserQuery fileName w') = Normal false.
Proof.
  intros Hplain named w'. subst w'.
  rewrite !(removeFile_plain _ _ Hplain). cbn zeta. fold named.
  assert (Hcalls : forall v, calls (detachFirst fileName v) = calls v).
  { intros v. unfold detachFirst. destruct (List.find _ _); reflexivity. }
  assert (Hfiles : forall v, selectedFiles (detachFirst fileName v) = selectedFiles v).
  { intros v. unfold detachFirst. destruct (List.find _ _); reflexivity. }
  destruct named; cbn [fst snd]; rewrite ?calls_call, ?selectedFiles_call, Hcalls, Hfiles;
    cbn [selectedFiles setSelectedFiles calls]; rewrite filter_named_none, ?app_nil_r;
    repeat split; reflexivity.
Qed.

End Removal.

(** *** Removal by name on concrete registries *)

Section RemovalCases.

Variable browserQuery : string -> list nat -> list PreviewItem -> QueryResult.

(** C3: with [a.png] (1 byte), [b.png] and [a.png] (3 bytes) admitted in
    that order, [removeFile("a.png")] filters both entries named [a.png] out
    of the registry, the later one included, and reports one removal; the
    lookup in the preview area detaches the first preview item of that name
    only, so the preview of the later entry stays attached. *)
Theorem removeFile_drops_every_entry_of_the_name :
  let a1 := Fixture.png "a.png" 1 in
  let b := Fixture.png "b.png" 2 in
  let a3 := Fixture.png "a.png" 3 in
  let w := addFiles [a1; b; a3] (fresh (Fixture.policy 5 2 ["image/png"])) in
  let w' := fst (removeFile browserQuery "a.png" w) in
  selectedFiles w = [a1; b; a3]
  /\ previewArea w = [0; 1; 2]%nat
  /\ selectedFiles w' = [b]
  /\ previewArea w' = [1; 2]%nat
  /\ (dataFileName <$> rendered w') = ["b.png"; "a.png"]
  /\ calls w' = calls w ++ [onFileRemoved "a.png"]
  /\ snd (removeFile browserQuery "a.png" w) = Normal true.
Proof. by_evaluation. Qed.

(** C9: with a file whose name holds a double quote in the registry,
    [removeFile] of that name filters the entry out and then throws on the
    selector it has built: it returns nothing and [onFileRemoved] is not
    called, although an entry of that name existed. *)
Theorem removeFile_throws_on_quoted_name :
  let f := Fixture.png Fixture.quotedName 10 in
  let w := addFiles [f] (fresh (Fixture.policy 5 2 ["image/png"])) in
  selectedFiles w = [f]
  /\ Selector.classify (previewItemSelector Fixture.quotedName) = Selector.Invalid
  /\ Js.isThrow (snd (removeFile browserQuery Fixture.quotedName w)) = true
  /\ selectedFiles (fst (removeFile browserQuery Fixture.quotedName w)) = []
  /\ calls (fst (removeFile browserQuery Fixture.quotedName w)) = [onFileAdded f].
Proof. by_evaluation. Qed.

End RemovalCases.

(** *** Construction *)

(** X18: construction throws exactly when [containerId] is absent or
    empty, or no element of the document has that id, or [labels.helpText] is
    absent or empty. *)
Lemma constructor_throws (document : list string) (o : Options.t) :
  Js.isThrow (constructor document o) =
    negb (truthyStr (Options.containerId o))
    || negb (includes document (default "" (Options.containerId o)))
    || negb (truthyStr (optHelpText o)).
Proof.
  unfold constructor.
  destruct (truthyStr (Options.containerId o)); [| reflexivity].
  destruct (includes document _); [| reflexivity].
  destruct (truthyStr (optHelpText o)); reflexivity.
Qed.

Lemma constructor_fresh (document : list string) (o : Options.t) (w : Widget) :
  constructor document o = Normal w -> w = fresh (config w).
Proof.
  unfold constructor.
  destruct (truthyStr (Options.containerId o)); [| discriminate].
  destruct (includes document _); [| discriminate].
  destruct (truthyStr (optHelpText o)); [| discriminate].
  cbn [negb bind]. intros [= <-]. reflexivity.
Qed.

(** C5: the configuration of the quick start, which names an existing
    container and omits every optional field, does not construct: the default
    help text calls [_getAllowedTypesString] while [this.config] is still
    unassigned, and the constructor ends in a [TypeError]. *)
Theorem constructor_throws_on_defaults :
  constructor ["my-uploader"] Fixture.quickStart
  = Throw (TypeError "Cannot read properties of undefined (reading 'allowedTypes')").
Proof. reflexivity. Qed.

(** *** Readers and their containers *)

Lemma readersInStore_outcome file w v :
  readersInStore w -> readersInStore (Policy.outcome file w v).
Proof.
  unfold readersInStore. intros H. destruct v; simpl; try exact H.
  rewrite length_app. simpl.
  assert (Hold : Forall (fun r => (fst r < List.length (elements w) + 1)%nat) (readers w)).
  { eapply List.Forall_impl; [| exact H]. simpl. intros. lia. }
  destruct (String.eqb (type file) "application/pdf"); [exact Hold |].
  apply Forall_app. split; [exact Hold |].
  constructor; [simpl; lia | constructor].
Qed.

Lemma readersInStore_handleFiles files w :
  readersInStore w -> readersInStore (_handleFiles files w).
Proof.
  revert w. induction files as [| file files IH]; intros w H; simpl; [exact H |].
  apply IH. rewrite handleFile_outcome. apply readersInStore_outcome. exact H.
Qed.

Lemma find_reader_in (c : nat) (rs : list (nat * File)) (r : nat * File) :
  List.find (fun r => Nat.eqb (fst r) c) rs = Some r -> In r rs /\ fst r = c.
Proof.
  intros H. apply find_some in H as [Hin Heq].
  split; [exact Hin | apply Nat.eqb_eq; exact Heq].
Qed.

Lemma readerFile_in_store c file w :
  readersInStore w -> readerFile c w = Some file -> (c < List.length (elements w))%nat.
Proof.
  unfold readersInStore, readerFile. intros Hall H.
  destruct (List.find _ (readers w)) as [r |] eqn:Hfind; [| discriminate].
  apply find_reader_in in Hfind as [Hin Hc].
  rewrite List.Forall_forall in Hall. specialize (Hall r Hin). lia.
Qed.

Lemma omap_ext_in {A B} (f g : A -> option B) (l : list A) :
  (forall x, In x l -> f x = g x) -> omap f l = omap g l.
Proof.
  induction l as [| x l IH]; intros H; [reflexivity |].
  cbn [omap list_omap]. rewrite (H x) by (left; reflexivity).
  rewrite IH by (intros y Hy; apply H; right; exact Hy). reflexivity.
Qed.


Lemma removeChild_awaits (k : nat) (es : list PreviewItem) (nid i : nat)
    (file : File) (it : PreviewItem) :
  es !! i = Some it -> Registry.awaits file it ->
  exists it', alter (removeChild k) nid es !! i = Some it' /\ Registry.awaits file it'.
Proof.
  intros Hit (Hname & Hclass & Hchildren).
  destruct (Nat.eq_dec nid i) as [-> | Hne].
  - rewrite list_lookup_alter_eq, Hit. cbn. eexists. split; [reflexivity |].
    repeat split; cbn [dataFileName classList children removeChild]; auto.
    etransitivity; [apply sublist_delete | exact Hchildren].
  - rewrite list_lookup_alter_ne by exact Hne. exists it. repeat split; auto.
Qed.

Lemma find_filter_none (c : nat) (rs : list (nat * File)) :
  List.find (fun r => Nat.eqb (fst r) c)
            (List.filter (fun r => negb (Nat.eqb (fst r) c)) rs) = None.
Proof.
  induction rs as [| r rs IH]; [reflexivity |].
  cbn [List.filter]. destruct (Nat.eqb (fst r) c) eqn:Hr; cbn [negb]; [exact IH |].
  cbn [List.find]. rewrite Hr. exact IH.
Qed.

(** *** The container a reader was started for *)

Lemma createdFor_intro (file : File) (v : Widget) :
  (Z.of_nat (List.length (selectedFiles v)) >=? maxFiles (config v)) = false ->
  truthyStr (_validateFile (config v) file) = false ->
  existsb (sameNameAndSize file) (selectedFiles v) = false ->
  String.eqb (type file) "application/pdf" = false ->
  Registry.createdFor file (List.length (elements v)) v.
Proof.
  intros Hroom Hvalid Hnew Himage. split; [reflexivity |].
  unfold handleFile. rewrite Hroom, Hvalid, Hnew.
  unfold _createPreview. rewrite Himage. reflexivity.
Qed.

Lemma handleFile_readers (file : File) (v : Widget) (r : nat * File) :
  In r (readers (handleFile file v)) ->
  In r (readers v) \/ (snd r = file /\ Registry.createdFor file (fst r) v).
Proof.
  unfold handleFile.
  destruct (_ >=? _) eqn:Hroom; [intros H; left; exact H |].
  destruct (truthyStr _) eqn:Hvalid; [intros H; left; exact H |].
  destruct (existsb _ _) eqn:Hnew; [intros H; left; exact H |].
  unfold _createPreview. cbn [readers call setPreviewArea setElements setReaders setSelectedFiles].
  destruct (String.eqb (type file) "application/pdf") eqn:Himage; [intros H; left; exact H |].
  intros H. apply in_app_or in H as [H | [<- | []]]; [left; exact H | right].
  split; [reflexivity |]. cbn [fst elements setSelectedFiles].
  apply createdFor_intro; assumption.
Qed.

Lemma handleFiles_readers (files : list File) (w : Widget) (r : nat * File) :
  In r (readers (_handleFiles files w)) ->
  In r (readers w)
  \/ exists files1 files2,
       files = files1 ++ snd r :: files2
       /\ Registry.createdFor (snd r) (fst r) (_handleFiles files1 w).
Proof.
  revert w. induction files as [| f files IH]; intros w H; [left; exact H |].
  change (_handleFiles (f :: files) w) with (_handleFiles files (handleFile f w)) in H.
  apply IH in H as [H | (files1 & files2 & -> & Hc)].
  - apply handleFile_readers in H as [H | [<- Hc]]; [left; exact H | right].
    exists [], files. split; [reflexivity | exact Hc].
  - right. exists (f :: files1), files2. split; [reflexivity | exact Hc].
Qed.

Lemma readersAwait_handleFile (file : File) (w : Widget) :
  Registry.readersAwait w -> Registry.readersAwait (handleFile file w).
Proof.
  unfold Registry.readersAwait. intros H.
  unfold handleFile.
  destruct (_ >=? _); [exact H |].
  destruct (truthyStr _); [exact H |].
  destruct (existsb _ _); [exact H |].
  unfold _createPreview.
  cbn [readers elements call setPreviewArea setElements setReaders setSelectedFiles].
  assert (Hold : Forall (fun r => exists it,
                    (elements w ++ [if String.eqb (type file) "application/pdf"
                       then mkPreviewItem (name file)
                              ["file-upload-sdk-preview-item"; "file-upload-sdk-pdf-preview"]
                              [PdfIcon (pdfIcon (icons (config w)));
                               FileNameSpan (_truncateFilename (name file)) (name file);
                               RemoveBtn ("Remove " +:+ name file)]
                       else mkPreviewItem (name file) ["file-upload-sdk-preview-item"]
                              [RemoveBtn ("Remove " +:+ name file)]]) !! fst r = Some it
                    /\ Registry.awaits (snd r) it) (readers w)).
  { eapply List.Forall_impl; [| exact H]. cbn beta. intros r (it & Hit & Hawaits).
    exists it. split; [| exact Hawaits].
    rewrite lookup_app_l; [exact Hit |]. apply lookup_lt_Some in Hit. exact Hit. }
  destruct (String.eqb (type file) "application/pdf"); [exact Hold |].
  apply Forall_app. split; [exact Hold |].
  constructor; [| constructor].
  cbn [fst snd]. eexists. split.
  - rewrite lookup_app_r by reflexivity. rewrite Nat.sub_diag. reflexivity.
  - repeat split; reflexivity.
Qed.

Lemma readersAwait_handleFiles (files : list File) (w : Widget) :
  Registry.readersAwait w -> Registry.readersAwait (_handleFiles files w).
Proof.
  revert w. induction files as [| f files IH]; intros w H; [exact H |].
  apply IH, readersAwait_handleFile, H.
Qed.

Lemma handleFile_store_grows (file : File) (w : Widget) :
  (List.length (elements w) <= List.length (elements (handleFile file w)))%nat.
Proof.
  unfold handleFile.
  destruct (_ >=? _); [reflexivity |].
  destruct (truthyStr _); [reflexivity |].
  destruct (existsb _ _); [reflexivity |].
  unfold _createPreview. cbn [elements call setPreviewArea setElements].
  rewrite length_app. apply Nat.le_add_r.
Qed.

Lemma handleFiles_store_grows (files : list File) (w : Widget) :
  (List.length (elements w) <= List.length (elements (_handleFiles files w)))%nat.
Proof.
  revert w. induction files as [| f files IH]; intros w; [reflexivity |].
  change (_handleFiles (f :: files) w) with (_handleFiles files (handleFile f w)).
  etransitivity; [apply handleFile_store_grows | apply IH].
Qed.

Lemma run_snoc (browserQuery : string -> list nat -> list PreviewItem -> QueryResult)
    (actions : list Action) (a : Action) (w : Widget) :
  run browserQuery (actions ++ [a]) w = step browserQuery (run browserQuery actions w) a.
Proof. unfold run. rewrite fold_left_app. reflexivity. Qed.

Section Readers.

Variable browserQuery : string -> list nat -> list PreviewItem -> QueryResult.

Lemma removeFile_store fileName w :
  List.length (elements (fst (removeFile browserQuery fileName w))) = List.length (elements w)
  /\ readers (fst (removeFile browserQuery fileName w)) = readers w.
Proof.
  unfold removeFile.
  destruct (querySelector _ _ _); simpl;
    repeat match goal with |- context [if ?b then _ else _] => destruct b end;
    simpl; rewrite ?length_alter; split; reflexivity.
Qed.

Lemma removeFile_removes_one fileName w :
  let w' := fst (removeFile browserQuery fileName w) in
  (elements w' = elements w)
  \/ (previewArea w' = previewArea w
      /\ exists nid k, elements w' = alter (removeChild k) nid (elements w)).
Proof.
  unfold removeFile.
  destruct (querySelector _ _ _); cbn [fst];
    repeat match goal with |- context [if ?b then _ else _] => destruct b end;
    cbn [fst elements previewArea call setPreviewArea setSelectedFiles setElements];
    eauto.
Qed.

Lemma step_store_grows w a :
  (List.length (elements w) <= List.length (elements (step browserQuery w a)))%nat.
Proof.
  destruct a as [files | files | files | fileName | | c res]; cbn [step];
    unfold addFiles, drop, inputChange; try apply handleFiles_store_grows.
  - destruct (removeFile_store fileName w) as [-> _]. reflexivity.
  - reflexivity.
  - unfold readerDone. destruct (readerFile c w); [| reflexivity].
    cbn [elements setElements]. rewrite length_alter. reflexivity.
Qed.

Lemma run_store_grows actions w :
  (List.length (elements w) <= List.length (elements (run browserQuery actions w)))%nat.
Proof.
  revert w. induction actions as [| a actions IH]; intros w; [reflexivity |].
  etransitivity; [apply (step_store_grows w a) | apply IH].
Qed.

Lemma readersAwait_step w a :
  Registry.readersAwait w -> Registry.readersAwait (step browserQuery w a).
Proof.
  intros H. destruct a as [files | files | files | fileName | | c res]; cbn [step];
    unfold addFiles, drop, inputChange; auto using readersAwait_handleFiles.
  - unfold Registry.readersAwait.
    destruct (removeFile_store fileName w) as [_ ->].
    destruct (removeFile_removes_one fileName w) as [-> | (_ & nid & k & ->)]; [exact H |].
    eapply List.Forall_impl; [| exact H]. cbn beta. intros r (it & Hit & Hawaits).
    apply (removeChild_awaits k _ nid _ _ it Hit Hawaits).
  - unfold readerDone. destruct (readerFile c w); [| exact H].
    unfold Registry.readersAwait in *.
    cbn [readers elements setElements setReaders].
    rewrite List.Forall_forall in *. intros r Hr.
    apply filter_In in Hr as [Hr Hne].
    destruct (H r Hr) as (it & Hit & Hawaits). exists it. split; [| exact Hawaits].
    rewrite list_lookup_alter_ne; [exact Hit |].
    apply negb_true_iff, Nat.eqb_neq in Hne. congruence.
Qed.

Lemma readersAwait_run actions w :
  Registry.readersAwait w -> Registry.readersAwait (run browserQuery actions w).
Proof.
  revert w. induction actions as [| a actions IH]; intros w H; simpl; [exact H |].
  apply IH. apply readersAwait_step. exact H.
Qed.

Lemma step_readers w a r :
  In r (readers (step browserQuery w a)) ->
  In r (readers w)
  \/ exists files1 files2,
       Registry.offered a = files1 ++ snd r :: files2
       /\ Registry.createdFor (snd r) (fst r) (_handleFiles files1 w).
Proof.
  destruct a as [files | files | files | fileName | | c res]; cbn [step Registry.offered];
    unfold addFiles, drop, inputChange; try apply handleFiles_readers.
  - destruct (removeFile_store fileName w) as [_ ->]. intros H. left. exact H.
  - intros H. left. exact H.
  - unfold readerDone. destruct (readerFile c w); [| intros H; left; exact H].
    cbn [readers setElements setReaders]. intros H. apply filter_In in H as [H _].
    left. exact H.
Qed.

Lemma reader_created cfg actions r :
  In r (readers (run browserQuery actions (fresh cfg))) ->
  exists pre a post files1 files2,
    actions = pre ++ a :: post
    /\ Registry.offered a = files1 ++ snd r :: files2
    /\ Registry.createdFor (snd r) (fst r)
         (_handleFiles files1 (run browserQuery pre (fresh cfg))).
Proof.
  induction actions as [| a actions IH] using rev_ind; [intros [] |].
  rewrite run_snoc. intros H.
  apply step_readers in H as [H | (files1 & files2 & Hoffered & Hcreated)].
  - destruct (IH H) as (pre & a0 & post & files1 & files2 & -> & Hoffered & Hcreated).
    exists pre, a0, (post ++ [a]), files1, files2.
    split; [rewrite <- app_assoc; reflexivity |]. split; assumption.
  - exists actions, a, [], files1, files2.
    split; [reflexivity | split; assumption].
Qed.

Lemma readersInStore_step w a :
  readersInStore w -> readersInStore (step browserQuery w a).
Proof.
  intros H. destruct a as [files | files | files | fileName | | c res]; simpl;
    unfold addFiles, drop, inputChange; auto using readersInStore_handleFiles.
  - unfold readersInStore. destruct (removeFile_store fileName w) as [-> ->]. exact H.
  - unfold readerDone. destruct (readerFile c w); [| exact H].
    unfold readersInStore in *. simpl. rewrite length_alter.
    rewrite List.Forall_forall in *. intros r Hr.
    apply filter_In in Hr as [Hr _]. auto.
Qed.

Lemma readersInStore_run actions w :
  readersInStore w -> readersInStore (run browserQuery actions w).
Proof.
  revert w. induction actions as [| a actions IH]; intros w H; simpl; [exact H |].
  apply IH. apply readersInStore_step. exact H.
Qed.

(** C4, as the code has it: the reader handlers make no check against the
    registry.  In a widget reached from construction with a reader pending
    on container [c] for [file], the completion of that reader runs its
    handlers on container [c] of the store and on nothing else: the registry,
    the list of attached containers, the callbacks and every other container
    are what they were.  When [c] is no longer attached, what the preview
    area shows does not change; [clearFiles] detaches [c], and so does the
    [removeFile] whose lookup finds [c].  A file admitted from here on, the
    same file again included, gets a container of its own, which is not [c].
    The container [c] is the one that was created when [file] was admitted:
    some action of the history offered [file], [handleFile] took it into the
    registry and called [onFileAdded], and [_createPreview] made [c] for it,
    new in the store, attached last, and handed to the reader of [file]; no
    handler has run on [c] since, which still carries the name of [file].
    Once the reader has ended, no reader is pending on [c].  Whatever
    happens to the widget from here on, a preview created then is a
    container other than [c], and creating it leaves [c] as it is. *)
Theorem stale_result_stays_on_its_container
    (cfg : Config) (actions : list Action) (c : nat) (file : File) (result : ReadResult) :
  let w := run browserQuery actions (fresh cfg) in
  readerFile c w = Some file ->
  let w' := readerDone c result w in
  (selectedFiles w' = selectedFiles w /\ previewArea w' = previewArea w
   /\ calls w' = calls w
   /\ elements w' !! c = readerHandlers file result <$> elements w !! c
   /\ forall i, i <> c -> elements w' !! i = elements w !! i)
  /\ (~ In c (previewArea w) -> rendered w' = rendered w)
  /\ ~ In c (previewArea (clearFiles w))
  /\ (forall fileName,
        Selector.plainName fileName = true ->
        List.find (hasFileName w fileName) (previewArea w) = Some c ->
        ~ In c (previewArea (fst (removeFile browserQuery fileName w))))
  /\ (forall file',
        previewArea (_createPreview file' w) = previewArea w ++ [List.length (elements w)]
        /\ List.length (elements w) <> c)
  /\ (exists pre a post files1 files2,
        actions = pre ++ a :: post
        /\ Registry.offered a = files1 ++ file :: files2
        /\ Registry.createdFor file c
             (_handleFiles files1 (run browserQuery pre (fresh cfg))))
  /\ (exists it, elements w !! c = Some it /\ Registry.awaits file it)
  /\ readerFile c w' = None
  /\ (forall more file',
        let later := run browserQuery more w in
        previewArea (_createPreview file' later)
        = previewArea later ++ [List.length (elements later)]
        /\ List.length (elements later) <> c
        /\ elements (_createPreview file' later) !! c = elements later !! c).
Proof.
  intros w Hreader w'.
  assert (Hpending : In (c, file) (readers w)).
  { unfold readerFile in Hreader.
    destruct (List.find _ (readers w)) as [[c0 file0] |] eqn:Hfind; [| discriminate].
    apply find_reader_in in Hfind as [Hin Hc]. cbn in Hreader, Hc.
    injection Hreader as <-. subst c0. exact Hin. }
  assert (Hstore : (c < List.length (elements w))%nat).
  { apply readerFile_in_store with (file := file); [| exact Hreader].
    apply readersInStore_run. constructor. }
  assert (Hother : forall i, i <> c -> elements w' !! i = elements w !! i).
  { intros i Hi. subst w'. unfold readerDone. rewrite Hreader. simpl.
    apply list_lookup_alter_ne. congruence. }
  split; [| split; [| split; [| split; [| split; [| split; [| split; [| split]]]]]]].
  - subst w'. unfold readerDone. rewrite Hreader. simpl.
    repeat split; try reflexivity.
    + apply list_lookup_alter_eq.
    + intros i Hi. apply list_lookup_alter_ne. congruence.
  - intros Hdetached. unfold rendered.
    replace (previewArea w') with (previewArea w)
      by (subst w'; unfold readerDone; rewrite Hreader; reflexivity).
    apply omap_ext_in. intros nid Hnid. apply Hother. congruence.
  - simpl. tauto.
  - intros fileName Hplain Hfind.
    rewrite (removeFile_plain browserQuery fileName w Hplain). cbn zeta.
    assert (Harea : ~ In c (previewArea (detachFirst fileName
              (setSelectedFiles
                 (List.filter (fun f => negb (String.eqb (name f) fileName)) (selectedFiles w))
                 w)))).
    { unfold detachFirst.
      change (hasFileName (setSelectedFiles ?fs w)) with (hasFileName w).
      cbn [previewArea setSelectedFiles]. rewrite Hfind. cbn [previewArea setPreviewArea].
      intros Hin. apply filter_In in Hin as [_ Hne].
      rewrite Nat.eqb_refl in Hne. discriminate. }
    destruct (existsb _ _); exact Harea.
  - intros file'. split; [reflexivity | lia].
  - apply (reader_created cfg actions (c, file) Hpending).
  - assert (Hawait : Registry.readersAwait w) by (apply readersAwait_run; constructor).
    unfold Registry.readersAwait in Hawait. rewrite List.Forall_forall in Hawait.
    apply (Hawait (c, file) Hpending).
  - subst w'. unfold readerDone. rewrite Hreader.
    unfold readerFile. cbn [readers setElements setReaders].
    rewrite find_filter_none. reflexivity.
  - intros more file' later.
    pose proof (run_store_grows more w) as Hgrows. fold later in Hgrows.
    split; [reflexivity |]. split; [lia |].
    unfold _createPreview. cbn [elements setPreviewArea setElements].
    apply lookup_app_l. lia.
Qed.

End Readers.

(** *** The text of [toFixed(2)] *)

Lemma string_length_app (a b : string) :
  String.length (a +:+ b) = (String.length a + String.length b)%nat.
Proof.
  induction a as [| c a IH]; [reflexivity |].
  rewrite string_app_cons. simpl. rewrite IH. reflexivity.
Qed.

Lemma substring_app_l (a b : string) : substring 0 (String.length a) (a +:+ b) = a.
Proof.
  induction a as [| c a IH].
  - destruct b; reflexivity.
  - rewrite string_app_cons. simpl. rewrite IH. reflexivity.
Qed.

Lemma substring_all (b : string) : substring 0 (String.length b) b = b.
Proof. induction b as [| c b IH]; simpl; congruence. Qed.

Lemma substring_app_r (a b : string) :
  substring (String.length a) (String.length b) (a +:+ b) = b.
Proof.
  induction a as [| c a IH].
  - apply substring_all.
  - rewrite string_app_cons. simpl. exact IH.
Qed.

Lemma pointBeforeLastTwo_app (p : string) (c1 c0 : ascii) :
  pointBeforeLastTwo (p +:+ String c1 (String c0 "")) = p +:+ "." +:+ String c1 (String c0 "").
Proof.
  unfold pointBeforeLastTwo. rewrite string_length_app. cbn [String.length].
  replace (String.length p + 2 - 2)%nat with (String.length p) by lia.
  rewrite substring_app_l.
  change 2%nat with (String.length (String c1 (String c0 ""))) at 1.
  rewrite substring_app_r. reflexivity.
Qed.

Lemma pretty_N_go_app (x : N) (s : string) : pretty_N_go x s = pretty_N_go x "" +:+ s.
Proof.
  revert s. induction (N.lt_wf_0 x) as [x _ IH]. intros s.
  destruct (N.eq_dec x 0) as [-> | Hx].
  - rewrite !pretty_N_go_0. reflexivity.
  - rewrite (pretty_N_go_step x s), (pretty_N_go_step x "") by lia.
    assert (Hlt : (x `div` 10 < x)%N) by (apply N.div_lt; lia).
    rewrite (IH _ Hlt (String _ s)), (IH _ Hlt (String _ "")).
    rewrite string_app_assoc. reflexivity.
Qed.

Lemma pretty_last_two_small :
  forallb (fun n =>
             String.eqb (padTo3 (numberToString n))
               (numberToString (n / 100)
                +:+ String (digit (n / 10 mod 10)) (String (digit (n mod 10)) "")))
          (map Z.of_nat (seq 0 100)) = true.
Proof. vm_compute. reflexivity. Qed.

Lemma pretty_last_two (n : Z) :
  0 <= n ->
  padTo3 (numberToString n)
  = numberToString (n / 100) +:+ String (digit (n / 10 mod 10)) (String (digit (n mod 10)) "").
Proof.
  intros Hn.
  destruct (Z_lt_le_dec n 100) as [Hsmall | Hbig].
  - pose proof pretty_last_two_small as H. rewrite forallb_forall in H.
    apply String.eqb_eq. apply (H n).
    apply in_map_iff. exists (Z.to_nat n). split; [lia |].
    apply in_seq. lia.
  - destruct n as [| p | p]; [lia | | lia].
    assert (Hq : exists q, Z.pos p / 100 = Z.pos q).
    { pose proof (Z.div_le_mono 100 (Z.pos p) 100 ltac:(lia) Hbig) as Hle.
      change (100 / 100) with 1 in Hle.
      destruct (Z.pos p / 100) as [| q | q]; [lia | eauto | lia]. }
    destruct Hq as [q Hq]. rewrite Hq.
    unfold numberToString, pretty, pretty_Z, pretty, pretty_positive, pretty, pretty_N.
    rewrite !decide_False by discriminate.
    set (x := N.pos p).
    assert (Hx : (100 <= x)%N) by (subst x; lia).
    assert (Hx10 : (0 < x `div` 10)%N) by (apply N.div_str_pos; lia).
    rewrite (pretty_N_go_step x) by lia.
    rewrite (pretty_N_go_step (x `div` 10)) by exact Hx10.
    rewrite pretty_N_go_app.
    assert (Hdiv : ((x `div` 10) `div` 10 = N.pos q)%N).
    { rewrite N.Div0.div_div. change (10 * 10)%N with 100%N.
      apply N2Z.inj. rewrite N2Z.inj_div. subst x. exact Hq. }
    rewrite Hdiv.
    assert (Hd0 : digit (Z.pos p mod 10) = pretty_N_char (x `mod` 10)).
    { unfold digit. f_equal. subst x. apply N2Z.inj.
      rewrite Z2N.id by (apply Z.mod_pos_bound; lia).
      rewrite N2Z.inj_mod. reflexivity. }
    assert (Hd1 : digit (Z.pos p / 10 mod 10) = pretty_N_char ((x `div` 10) `mod` 10)).
    { unfold digit. f_equal. subst x. apply N2Z.inj.
      rewrite Z2N.id by (apply Z.mod_pos_bound; lia).
      rewrite N2Z.inj_mod, N2Z.inj_div. reflexivity. }
    rewrite Hd0, Hd1.
    unfold padTo3.
    assert (Hlen : (1 <= String.length (pretty_N_go (N.pos q) ""))%nat).
    { rewrite (pretty_N_go_step (N.pos q)) by lia. rewrite pretty_N_go_app.
      rewrite string_length_app. simpl. lia. }
    rewrite string_length_app. cbn [String.length].
    replace (3 - (String.length (pretty_N_go (N.pos q) "") + 2))%nat with 0%nat by lia.
    reflexivity.
Qed.

(** For a size that is not negative, [mbToFixed2] prints the integer part of
    the rounded value, a point, and two digits. *)
Lemma mbToFixed2_two_decimals (size : Z) :
  0 <= size ->
  mbToFixed2 size
  = numberToString (hundredths size / 100) +:+ "."
    +:+ String (digit (hundredths size / 10 mod 10))
          (String (digit (hundredths size mod 10)) "").
Proof.
  intros Hsize. unfold mbToFixed2.
  destruct (Z.ltb_spec size 0); [lia |].
  unfold toFixed2Pos. rewrite pretty_last_two.
  - apply pointBeforeLastTwo_app.
  - unfold hundredths. apply Z.div_pos; lia.
Qed.

(** *** Batches *)

Lemma handleFiles_app files files' w :
  _handleFiles (files ++ files') w = _handleFiles files' (_handleFiles files w).
Proof. unfold _handleFiles. apply fold_left_app. Qed.

Lemma handleFile_full file w :
  maxFiles (config w) <= Z.of_nat (List.length (selectedFiles w)) ->
  handleFile file w =
    call (onValidationFail (Policy.reason (config w) file Policy.Capacity)) w.
Proof.
  intros Hfull. unfold handleFile.
  rewrite Z.geb_leb. destruct (Z.leb_spec (maxFiles (config w))
                                 (Z.of_nat (List.length (selectedFiles w)))); [reflexivity | lia].
Qed.

Lemma handleFile_accepts file w :
  Z.of_nat (List.length (selectedFiles w)) < maxFiles (config w) ->
  _validateFile (config w) file = None ->
  existsb (sameNameAndSize file) (selectedFiles w) = false ->
  handleFile file w =
    call (onFileAdded file)
      (_createPreview file (setSelectedFiles (selectedFiles w ++ [file]) w)).
Proof.
  intros Hroom Hvalid Hnew. unfold handleFile.
  rewrite Z.geb_leb. destruct (Z.leb_spec (maxFiles (config w))
                                 (Z.of_nat (List.length (selectedFiles w)))); [lia |].
  rewrite Hvalid, Hnew. reflexivity.
Qed.

Lemma handleFile_duplicate file w :
  Z.of_nat (List.length (selectedFiles w)) < maxFiles (config w) ->
  _validateFile (config w) file = None ->
  existsb (sameNameAndSize file) (selectedFiles w) = true ->
  handleFile file w = w.
Proof.
  intros Hroom Hvalid Hdup. unfold handleFile.
  rewrite Z.geb_leb. destruct (Z.leb_spec (maxFiles (config w))
                                 (Z.of_nat (List.length (selectedFiles w)))); [lia |].
  rewrite Hvalid, Hdup. reflexivity.
Qed.

Lemma sameNameAndSize_refl file : sameNameAndSize file file = true.
Proof. unfold sameNameAndSize. rewrite String.eqb_refl, Z.eqb_refl. reflexivity. Qed.

(** C6, as the code has it: for a file [f] that passes the type and size
    checks, with a free slot and no entry of its name and size, the intake of
    [f] twice in one batch leaves one more entry, [f], and one [onFileAdded];
    the second copy is skipped in silence when a second slot was free, and is
    reported as a capacity failure when the first copy took the last slot,
    the capacity check coming before the duplicate check. *)
Theorem duplicate_in_one_batch (f : File) (w : Widget) :
  Z.of_nat (List.length (selectedFiles w)) < maxFiles (config w) ->
  _validateFile (config w) f = None ->
  existsb (sameNameAndSize f) (selectedFiles w) = false ->
  let w' := addFiles [f; f] w in
  selectedFiles w' = selectedFiles w ++ [f]
  /\ calls w' =
       calls w ++ onFileAdded f ::
         (if Z.of_nat (List.length (selectedFiles w)) + 2 <=? maxFiles (config w)
          then []
          else [onValidationFail
                  ("Maximum number of files (" +:+ numberToString (maxFiles (config w))
                   +:+ ") reached.")]).
Proof.
  intros Hroom Hvalid Hnew w'. subst w'. unfold addFiles, _handleFiles.
  cbn [fold_left]. rewrite (handleFile_accepts f w Hroom Hvalid Hnew).
  set (w1 := call (onFileAdded f) _).
  assert (Hfiles : selectedFiles w1 = selectedFiles w ++ [f]) by reflexivity.
  assert (Hcfg : config w1 = config w) by reflexivity.
  assert (Hcalls : calls w1 = calls w ++ [onFileAdded f]) by reflexivity.
  assert (Hlen : Z.of_nat (List.length (selectedFiles w1))
                 = Z.of_nat (List.length (selectedFiles w)) + 1).
  { rewrite Hfiles, length_app. simpl. lia. }
  destruct (Z.leb_spec (Z.of_nat (List.length (selectedFiles w)) + 2) (maxFiles (config w))).
  - rewrite handleFile_duplicate.
    + rewrite Hfiles, Hcalls. split; reflexivity.
    + rewrite Hcfg. lia.
    + rewrite Hcfg. exact Hvalid.
    + rewrite Hfiles, existsb_app. cbn [existsb].
      rewrite sameNameAndSize_refl, orb_true_r. reflexivity.
  - rewrite handleFile_full by (rewrite Hcfg; lia).
    rewrite selectedFiles_call, calls_call, Hfiles, Hcalls, Hcfg, <- app_assoc.
    split; reflexivity.
Qed.

(** C8: a batch is consumed from the front, each candidate against the
    widget the candidates before it have left; with [maxFiles = 1] and an
    empty registry, of two files that each pass the type and size checks the
    first is admitted and the second is rejected for capacity. *)
Theorem batch_in_input_order (cfg : Config) (fileA fileB : File) :
  maxFiles cfg = 1 ->
  _validateFile cfg fileA = None ->
  _validateFile cfg fileB = None ->
  (forall files files' w,
      addFiles (files ++ files') w = addFiles files' (addFiles files w))
  /\ (forall file files w, addFiles (file :: files) w = addFiles files (handleFile file w))
  /\ selectedFiles (addFiles [fileA; fileB] (fresh cfg)) = [fileA]
  /\ calls (addFiles [fileA; fileB] (fresh cfg))
     = [onFileAdded fileA; onValidationFail "Maximum number of files (1) reached."].
Proof.
  intros Hmax HA HB.
  split; [intros; apply handleFiles_app |].
  split; [reflexivity |].
  unfold addFiles, _handleFiles. cbn [fold_left].
  rewrite (handleFile_accepts fileA (fresh cfg)); [| simpl; lia | exact HA | reflexivity].
  rewrite handleFile_full by (simpl; lia).
  cbn [config call _createPreview setPreviewArea setElements setReaders setSelectedFiles fresh
       Policy.reason].
  rewrite Hmax. split; reflexivity.
Qed.

(** C7: a file larger than [maxSizeMB] megabytes is not admitted: its
    intake changes nothing but the trace of callbacks, to which it adds one
    [onValidationFail].  When there is room and the type is allowed, the
    message names the file, gives its size in megabytes as [toFixed(2)] prints
    it (the hundredth nearest to [size / 1024 / 1024], ties upwards, written
    with two digits after the point) and the configured maximum. *)
Theorem oversized_file_is_rejected (f : File) (w : Widget) :
  maxSizeMB (config w) * 1024 * 1024 < size f ->
  exists error,
    addFiles [f] w = call (onValidationFail error) w
    /\ selectedFiles (addFiles [f] w) = selectedFiles w
    /\ calls (addFiles [f] w) = calls w ++ [onValidationFail error]
    /\ (Z.of_nat (List.length (selectedFiles w)) < maxFiles (config w) ->
        includes (allowedTypes (config w)) (type f) = true ->
        error = "File is too large: " +:+ name f +:+ " (" +:+ mbToFixed2 (size f)
                +:+ " MB). Maximum size is " +:+ numberToString (maxSizeMB (config w))
                +:+ " MB."
        /\ (0 <= size f ->
            mbToFixed2 (size f)
            = numberToString (hundredths (size f) / 100) +:+ "."
              +:+ String (digit (hundredths (size f) / 10 mod 10))
                    (String (digit (hundredths (size f) mod 10)) "")
            /\ 2 ^ 21 * hundredths (size f) <= 200 * size f + 2 ^ 20
                 < 2 ^ 21 * (hundredths (size f) + 1))).
Proof.
  intros Hbig. unfold addFiles, _handleFiles. cbn [fold_left].
  rewrite handleFile_outcome.
  unfold Policy.validate, Policy.firstFailure, Policy.order. cbn [List.find].
  assert (Hsize : Policy.fails (config w) (selectedFiles w) f Policy.SizeCheck = true).
  { cbn [Policy.fails]. apply Z.ltb_lt. exact Hbig. }
  destruct (Policy.fails (config w) (selectedFiles w) f Policy.Capacity) eqn:Hcap.
  { eexists. do 3 (split; [reflexivity |]).
    intros Hroom _. exfalso.
    cbn [Policy.fails] in Hcap. apply Z.leb_le in Hcap. lia. }
  destruct (Policy.fails (config w) (selectedFiles w) f Policy.TypeCheck) eqn:Htype.
  { eexists. do 3 (split; [reflexivity |]).
    intros _ Hallowed. exfalso.
    cbn [Policy.fails] in Htype. unfold includes in Hallowed.
    rewrite Hallowed in Htype. discriminate. }
  rewrite Hsize. eexists. do 3 (split; [reflexivity |]).
  intros _ _. split; [reflexivity |].
  intros Hnonneg. split; [apply mbToFixed2_two_decimals; exact Hnonneg |].
  unfold hundredths. split.
  - apply Z.mul_div_le. lia.
  - pose proof (Z.mod_pos_bound (200 * size f + 2 ^ 20) (2 ^ 21) ltac:(lia)).
    pose proof (Z.div_mod (200 * size f + 2 ^ 20) (2 ^ 21) ltac:(lia)). lia.
Qed.

(** *** Falsy limits *)

Lemma numOr_falsy (v : NumOption) (d : Z) : truthyNum v = false -> numOr v d = d.
Proof.
  destruct v as [| | | | | z]; simpl; try reflexivity.
  destruct (z =? 0); [reflexivity | discriminate].
Qed.

Lemma numOr_nonzero (v : NumOption) (d : Z) : d <> 0 -> numOr v d <> 0.
Proof.
  intros Hd. destruct v as [| | | | | z]; simpl; try exact Hd.
  destruct (Z.eqb_spec z 0); [exact Hd | assumption].
Qed.

Lemma constructor_limits (document : list string) (o : Options.t) (w : Widget) :
  constructor document o = Normal w ->
  maxFiles (config w) = numOr (Options.maxFiles o) 10
  /\ maxSizeMB (config w) = numOr (Options.maxSizeMB o) 5.
Proof.
  unfold constructor.
  destruct (truthyStr (Options.containerId o)); [| discriminate].
  destruct (includes document _); [| discriminate].
  destruct (truthyStr (optHelpText o)); [| discriminate].
  cbn [negb bind]. intros [= <-]. split; reflexivity.
Qed.

Lemma constructor_same_limits (document : list string) (o o' : Options.t) :
  Options.containerId o = Options.containerId o' ->
  numOr (Options.maxFiles o) 10 = numOr (Options.maxFiles o') 10 ->
  Options.inputName o = Options.inputName o' ->
  numOr (Options.maxSizeMB o) 5 = numOr (Options.maxSizeMB o') 5 ->
  Options.allowedTypes o = Options.allowedTypes o' ->
  Options.labels o = Options.labels o' ->
  Options.icons o = Options.icons o' ->
  constructor document o = constructor document o'.
Proof.
  intros Hid Hfiles Hname Hsize Htypes Hlabels Hicons.
  unfold constructor, optHelpText, optDropText, optUploadIcon, optPdfIcon.
  rewrite Hid, Hfiles, Hname, Hsize, Htypes, Hlabels, Hicons. reflexivity.
Qed.

(** C10: a falsy [maxFiles] or [maxSizeMB] (zero, [NaN], [null], [false],
    the empty string) constructs exactly what the absent option constructs,
    with the default 10, respectively 5, in its place; no constructed widget
    has a [maxFiles] or a [maxSizeMB] of zero. *)
Theorem falsy_limits_take_the_defaults
    (document : list string) (o : Options.t) (v : NumOption) :
  truthyNum v = false ->
  constructor document (withMaxFiles v o) = constructor document (withMaxFiles NumAbsent o)
  /\ constructor document (withMaxSizeMB v o)
     = constructor document (withMaxSizeMB NumAbsent o)
  /\ (forall w, constructor document (withMaxFiles v o) = Normal w ->
                maxFiles (config w) = 10)
  /\ (forall w, constructor document (withMaxSizeMB v o) = Normal w ->
                maxSizeMB (config w) = 5)
  /\ (forall w, constructor document o = Normal w ->
                maxFiles (config w) <> 0 /\ maxSizeMB (config w) <> 0).
Proof.
  intros Hfalsy.
  split; [| split; [| split; [| split]]].
  - apply constructor_same_limits; try reflexivity.
    cbn [withMaxFiles Options.maxFiles]. rewrite numOr_falsy by exact Hfalsy. reflexivity.
  - apply constructor_same_limits; try reflexivity.
    cbn [withMaxSizeMB Options.maxSizeMB]. rewrite numOr_falsy by exact Hfalsy. reflexivity.
  - intros w Hw. apply constructor_limits in Hw as [-> _].
    cbn [withMaxFiles Options.maxFiles]. apply numOr_falsy. exact Hfalsy.
  - intros w Hw. apply constructor_limits in Hw as [_ ->].
    cbn [withMaxSizeMB Options.maxSizeMB]. apply numOr_falsy. exact Hfalsy.
  - intros w Hw. apply constructor_limits in Hw as [-> ->].
    split; apply numOr_nonzero; discriminate.
Qed.

(** *** Counterexamples to the specification as it is worded *)

(** C4 as worded fails.  The handlers write to the container without any
    check against the registry: after [a.png] is admitted and removed, the
    completion of its reader still appends the image to its container.  And
    with two files named [a.png] admitted, [removeFile("a.png")] empties the
    registry but leaves the second preview attached, where the late result of
    the second reader then shows. *)
Lemma stale_result_is_applied :
  let cfg := Fixture.policy 5 2 ["image/png"] in
  let a1 := Fixture.png "a.png" 1 in
  let a2 := Fixture.png "a.png" 2 in
  let late := Loaded Fixture.dataUrl in
  let img := Img (Some Fixture.dataUrl) "Preview of a.png" "a.png" in
  let w := run Fixture.findsNothing [AddFiles [a1]; RemoveFile "a.png"] (fresh cfg) in
  let v := run Fixture.findsNothing [AddFiles [a1; a2]; RemoveFile "a.png"] (fresh cfg) in
  (selectedFiles w = [] /\ readerFile 0 w = Some a1
   /\ (children <$> elements w) = [[RemoveBtn "Remove a.png"]]
   /\ (children <$> elements (readerDone 0 late w)) = [[RemoveBtn "Remove a.png"; img]])
  /\ (selectedFiles v = [] /\ readerFile 1 v = Some a2
      /\ (children <$> rendered v) = [[RemoveBtn "Remove a.png"]]
      /\ (children <$> rendered (readerDone 1 late v)) = [[RemoveBtn "Remove a.png"; img]]).
Proof. by_evaluation. Qed.

(** C6 as worded fails when the free slot is the last one: the second
    copy is then reported through [onValidationFail]. *)
Lemma duplicate_reported_when_last_slot :
  let cfg := Fixture.policy 1 2 ["image/png"] in
  let f := Fixture.png "a.png" 10 in
  (Z.of_nat (List.length (selectedFiles (fresh cfg))) < maxFiles cfg
   /\ _validateFile cfg f = None
   /\ existsb (sameNameAndSize f) (selectedFiles (fresh cfg)) = false)
  /\ selectedFiles (addFiles [f; f] (fresh cfg)) = [f]
  /\ calls (addFiles [f; f] (fresh cfg))
     = [onFileAdded f; onValidationFail "Maximum number of files (1) reached."].
Proof. by_evaluation. Qed.

(** *** The theorems at concrete inputs *)

Lemma registry_never_exceeds_maxFiles_witness :
  let cfg := Fixture.scenario in
  let actions :=
    [AddFiles [Fixture.png "a.png" 524288; Fixture.png "b.png" 2097152];
     Drop [Fixture.png "c.png" 1; Fixture.png "d.png" 2];
     RemoveFile "a.png";
     InputChange [Fixture.png "e.png" 3; Fixture.png "f.png" 4];
     ReaderDone 1 Failed] in
  0 < maxFiles cfg
  /\ selectedFiles (run Fixture.findsNothing actions (fresh cfg))
     = [Fixture.png "c.png" 1; Fixture.png "e.png" 3]
  /\ Z.of_nat (List.length (selectedFiles (run Fixture.findsNothing actions (fresh cfg))))
     <= maxFiles cfg.
Proof.
  intros cfg actions.
  assert (Hpos : 0 < maxFiles cfg) by reflexivity.
  split; [exact Hpos |]. split; [reflexivity |].
  destruct (registry_never_exceeds_maxFiles Fixture.findsNothing cfg actions Hpos)
    as (_ & Hbound & _).
  exact Hbound.
Defined.

Lemma admission_first_failure_wins_witness :
  let w := addFiles [Fixture.png "a.png" 1] (fresh Fixture.scenario) in
  let gif := mkFile "c.gif" 10 "image/gif" in
  Policy.fails (config w) (selectedFiles w) gif Policy.Capacity = false
  /\ Policy.fails (config w) (selectedFiles w) gif Policy.TypeCheck = true
  /\ selectedFiles (handleFile gif w) = selectedFiles w
  /\ calls (handleFile gif w)
     = calls w ++ [onValidationFail "File type not allowed: c.gif (image/gif). PNG only."].
Proof.
  intros w gif.
  assert (Hcap : Policy.fails (config w) (selectedFiles w) gif Policy.Capacity = false)
    by reflexivity.
  assert (Htype : Policy.fails (config w) (selectedFiles w) gif Policy.TypeCheck = true)
    by reflexivity.
  split; [exact Hcap |]. split; [exact Htype |].
  assert (Hpre : Forall (fun d => Policy.fails (config w) (selectedFiles w) gif d = false)
                        [Policy.Capacity])
    by (constructor; [exact Hcap | constructor]).
  destruct (admission_first_failure_wins gif w) as (_ & Hfirst & _).
  destruct (Hfirst [Policy.Capacity] Policy.TypeCheck
                   [Policy.SizeCheck; Policy.DuplicateCheck] eq_refl Hpre Htype)
    as (Hfiles & Hcalls & _).
  split; [exact Hfiles | exact Hcalls].
Defined.

Lemma stale_result_stays_on_its_container_witness :
  let cfg := Fixture.policy 5 2 ["image/png"] in
  let a := Fixture.png "a.png" 1 in
  let actions := [AddFiles [a]; RemoveFile "a.png"; AddFiles [a]] in
  let w := run Fixture.findsNothing actions (fresh cfg) in
  readerFile 0 w = Some a
  /\ readers w = [(0%nat, a); (1%nat, a)]
  /\ selectedFiles w = [a]
  /\ previewArea w = [1%nat]
  /\ rendered (readerDone 0 (Loaded Fixture.dataUrl) w) = rendered w
  /\ (exists pre a0 post files1 files2,
        actions = pre ++ a0 :: post
        /\ Registry.offered a0 = files1 ++ a :: files2
        /\ Registry.createdFor a 0
             (_handleFiles files1 (run Fixture.findsNothing pre (fresh cfg))))
  /\ readerFile 0 (readerDone 0 (Loaded Fixture.dataUrl) w) = None.
Proof.
  intros cfg a actions w.
  assert (Hreader : readerFile 0 w = Some a) by reflexivity.
  split; [exact Hreader |]. split; [reflexivity |]. split; [reflexivity |].
  split; [reflexivity |].
  destruct (stale_result_stays_on_its_container Fixture.findsNothing cfg actions 0 a
              (Loaded Fixture.dataUrl) Hreader)
    as (_ & Hdetached & _ & _ & _ & Hcreated & _ & Hended & _).
  split; [| split; [exact Hcreated | exact Hended]].
  apply Hdetached. simpl. intros [H | []]. discriminate H.
Defined.

Lemma duplicate_in_one_batch_witness :
  let w := fresh Fixture.scenario in
  let f := Fixture.png "a.png" 524288 in
  Z.of_nat (List.length (selectedFiles w)) < maxFiles (config w)
  /\ _validateFile (config w) f = None
  /\ existsb (sameNameAndSize f) (selectedFiles w) = false
  /\ selectedFiles (addFiles [f; f] w) = [f]
  /\ calls (addFiles [f; f] w) = [onFileAdded f].
Proof.
  intros w f.
  assert (Hroom : Z.of_nat (List.length (selectedFiles w)) < maxFiles (config w))
    by reflexivity.
  assert (Hvalid : _validateFile (config w) f = None) by reflexivity.
  assert (Hnew : existsb (sameNameAndSize f) (selectedFiles w) = false) by reflexivity.
  split; [exact Hroom |]. split; [exact Hvalid |]. split; [exact Hnew |].
  destruct (duplicate_in_one_batch f w Hroom Hvalid Hnew) as [Hfiles Hcalls].
  split; [exact Hfiles | exact Hcalls].
Defined.

Lemma oversized_file_is_rejected_witness :
  let w := addFiles [Fixture.png "a.png" 524288] (fresh Fixture.scenario) in
  let f := Fixture.png "b.png" 2097152 in
  maxSizeMB (config w) * 1024 * 1024 < size f
  /\ selectedFiles (addFiles [f] w) = selectedFiles w
  /\ calls (addFiles [f] w)
     = calls w
       ++ [onValidationFail "File is too large: b.png (2.00 MB). Maximum size is 1 MB."].
Proof.
  intros w f.
  assert (Hbig : maxSizeMB (config w) * 1024 * 1024 < size f) by reflexivity.
  split; [exact Hbig |].
  destruct (oversized_file_is_rejected f w Hbig) as (error & _ & Hfiles & Hcalls & Hmsg).
  destruct (Hmsg eq_refl eq_refl) as [Herror _].
  split; [exact Hfiles |].
  rewrite Hcalls, Herror. reflexivity.
Defined.

Lemma batch_in_input_order_witness :
  let cfg := Fixture.policy 1 2 ["image/png"] in
  let fileA := Fixture.png "a.png" 10 in
  let fileB := Fixture.png "b.png" 20 in
  maxFiles cfg = 1
  /\ _validateFile cfg fileA = None
  /\ _validateFile cfg fileB = None
  /\ selectedFiles (addFiles [fileA; fileB] (fresh cfg)) = [fileA]
  /\ calls (addFiles [fileA; fileB] (fresh cfg))
     = [onFileAdded fileA; onValidationFail "Maximum number of files (1) reached."].
Proof.
  intros cfg fileA fileB.
  destruct (batch_in_input_order cfg fileA fileB eq_refl eq_refl eq_refl)
    as (_ & _ & Hfiles & Hcalls).
  repeat split; first [reflexivity | exact Hfiles | exact Hcalls].
Defined.

Lemma falsy_limits_take_the_defaults_witness :
  truthyNum (Num 0) = false
  /\ Js.isThrow (constructor ["uploader"] (withMaxFiles (Num 0) Fixture.demo)) = false
  /\ constructor ["uploader"] (withMaxFiles (Num 0) Fixture.demo)
     = constructor ["uploader"] (withMaxFiles NumAbsent Fixture.demo)
  /\ constructor ["uploader"] (withMaxSizeMB (Num 0) Fixture.demo)
     = constructor ["uploader"] (withMaxSizeMB NumAbsent Fixture.demo).
Proof.
  assert (Hfalsy : truthyNum (Num 0) = false) by reflexivity.
  split; [exact Hfalsy |]. split; [reflexivity |].
  destruct (falsy_limits_take_the_defaults ["uploader"] Fixture.demo (Num 0) Hfalsy)
    as (Hfiles & Hsize & _).
  split; [exact Hfiles | exact Hsize].
Defined.

(** *** The built-ins and the scenario of the specification, evaluated *)

Example toFixed_2MB : Js.mbToFixed2 2097152 = "2.00".
Proof. reflexivity. Qed.

Example toFixed_half_MB : Js.mbToFixed2 524288 = "0.50".
Proof. reflexivity. Qed.

Example toFixed_rounds_up : Js.mbToFixed2 5243 = "0.01".
Proof. reflexivity. Qed.

Example toFixed_rounds_down : Js.mbToFixed2 5242 = "0.00".
Proof. reflexivity. Qed.

Example replaceFirst_once :
  Js.replaceFirst "{maxFiles}" "10" "Max {maxFiles} of {maxFiles}" = "Max 10 of {maxFiles}".
Proof. reflexivity. Qed.

Example split_mime : Js.split "/" "image/svg+xml" = ["image"; "svg+xml"].
Proof. reflexivity. Qed.

Example allowedTypesText_labels :
  allowedTypesText ["image/jpeg"; "image/png"; "text/plain"; "folder"]
  = "JPG, PNG, PLAIN, folder only".
Proof. reflexivity. Qed.

Example classify_plain :
  Selector.classify (previewItemSelector "photo.png") = Selector.ByValue "photo.png".
Proof. reflexivity. Qed.

Example classify_quoted :
  Selector.classify (previewItemSelector Fixture.quotedName) = Selector.Invalid.
Proof. reflexivity. Qed.

Example constructor_demo :
  constructor ["uploader"] Fixture.demo
  = Normal (fresh (mkConfig 5 "files[]" 2
                     ["image/jpeg"; "image/png"; "image/gif"; "application/pdf"]
                     (mkLabels "Drop files here or click to browse"
                               "Upload up to 5 files (max 2MB each)")
                     (mkIcons None defaultPdfIcon))).
Proof. reflexivity. Qed.

Example constructor_without_container :
  constructor ["uploader"] (Options.mk None NumAbsent None NumAbsent None None None)
  = Throw (Error "FileUploadSDK: containerId is required").
Proof. reflexivity. Qed.

Example constructor_container_not_found :
  constructor ["other"] Fixture.demo
  = Throw (Error "FileUploadSDK: Element with ID 'uploader' not found").
Proof. reflexivity. Qed.

Example scenario_intake :
  let half := Fixture.png "half.png" 524288 in
  let two := Fixture.png "two.png" 2097152 in
  let small := Fixture.png "small.png" 1 in
  let third := Fixture.png "third.png" 2 in
  let w := addFiles [third] (addFiles [small] (addFiles [two] (addFiles [half]
             (fresh Fixture.scenario)))) in
  getFiles (addFiles [half] (fresh Fixture.scenario)) = [half]
  /\ getFiles w = [half; small]
  /\ calls w
     = [onFileAdded half;
        onValidationFail "File is too large: two.png (2.00 MB). Maximum size is 1 MB.";
        onFileAdded small;
        onValidationFail "Maximum number of files (2) reached."].
Proof. by_evaluation. Qed.

Example clearFiles_is_silent :
  let w := addFiles [Fixture.png "a.png" 1; Fixture.png "b.png" 2] (fresh Fixture.scenario) in
  getFiles (clearFiles w) = [] /\ previewArea (clearFiles w) = []
  /\ calls (clearFiles w) = calls w.
Proof. by_evaluation. Qed.

Example pdf_preview_is_immediate :
  let cfg := Fixture.policy 5 2 ["application/pdf"] in
  let w := addFiles [mkFile "quarterly-report-2024.pdf" 1000 "application/pdf"] (fresh cfg) in
  readers w = []
  /\ (children <$> rendered w)
     = [[PdfIcon defaultPdfIcon;
         FileNameSpan "quarterly-re....pdf" "quarterly-report-2024.pdf";
         RemoveBtn "Remove quarterly-report-2024.pdf"]].
Proof. by_evaluation. Qed.

Example failed_read_shows_the_error :
  let w := addFiles [Fixture.png "a.png" 1] (fresh Fixture.scenario) in
  (children <$> rendered (readerDone 0 Failed w))
  = [[TextNode "Error loading preview"; Img None "Preview of a.png" "a.png"]].
Proof. reflexivity. Qed.

(** ** Further properties of the code *)

Import Registry.

(** *** The registry of a reachable widget *)

Lemma not_duplicate_key (file : File) (registry : list File) :
  existsb (sameNameAndSize file) registry = false -> ~ In (key file) (map key registry).
Proof.
  intros Hnone Hin. apply in_map_iff in Hin as (e & Hkey & He).
  assert (Htrue : existsb (sameNameAndSize file) registry = true).
  { apply existsb_exists. exists e. split; [exact He |].
    unfold key in Hkey. injection Hkey as Hname Hsize.
    unfold sameNameAndSize. rewrite Hname, Hsize, String.eqb_refl, Z.eqb_refl. reflexivity. }
  congruence.
Qed.

Lemma validateFile_passes (cfg : Config) (file : File) :
  truthyStr (_validateFile cfg file) = false <-> passes cfg file.
Proof.
  unfold _validateFile, passes.
  destruct (includes (allowedTypes cfg) (type file)); cbn [negb].
  - destruct (Z.gtb_spec (size file) (maxSizeMB cfg * 1024 * 1024)).
    + split; [discriminate | intros [_ H']; lia].
    + split; [intros _; split; [reflexivity | lia] | reflexivity].
  - split; [discriminate | intros [H' _]; discriminate].
Qed.

Lemma handleFile_enter (file : File) (w : Widget) :
  selectedFiles (handleFile file w) = enter (config w) (selectedFiles w) file.
Proof.
  unfold handleFile, enter.
  repeat match goal with |- context [if ?b then _ else _] => destruct b end; reflexivity.
Qed.

Lemma handleFiles_enter (files : list File) (w : Widget) :
  selectedFiles (_handleFiles files w) = fold_left (enter (config w)) files (selectedFiles w).
Proof.
  revert w. induction files as [| file files IH]; intros w; [reflexivity |].
  cbn [_handleFiles fold_left]. change (fold_left _ files (handleFile file w))
    with (_handleFiles files (handleFile file w)).
  rewrite IH, config_handleFile, handleFile_enter. reflexivity.
Qed.

Lemma sound_enter cfg registry file :
  sound cfg registry -> sound cfg (enter cfg registry file).
Proof.
  intros [Hnodup Hpass]. unfold enter.
  destruct (_ >=? _); [split; assumption |].
  destruct (truthyStr (_validateFile cfg file)) eqn:Hvalid; [split; assumption |].
  destruct (existsb (sameNameAndSize file) registry) eqn:Hdup; [split; assumption |].
  split.
  - rewrite map_app. cbn [map]. apply List.NoDup_app.
    + exact Hnodup.
    + constructor; [intros [] | constructor].
    + intros k Hk [<- | []]. exact (not_duplicate_key _ _ Hdup Hk).
  - apply Forall_app. split; [exact Hpass |].
    constructor; [apply validateFile_passes; exact Hvalid | constructor].
Qed.

Lemma sound_filter cfg registry (p : File -> bool) :
  sound cfg registry -> sound cfg (List.filter p registry).
Proof.
  intros [Hnodup Hpass]. split.
  - induction registry as [| f registry IH]; [constructor |].
    cbn [map] in Hnodup. inversion Hnodup as [| k ks Hnotin Hrest]; subst.
    inversion Hpass as [| f' fs Hf Hfs]; subst.
    cbn [List.filter]. destruct (p f); [| auto].
    cbn [map]. constructor; [| auto].
    intros Hin. apply Hnotin. apply in_map_iff in Hin as (e & He & Hein).
    apply in_map_iff. exists e. split; [exact He |].
    apply filter_In in Hein as [Hein _]. exact Hein.
  - rewrite List.Forall_forall in *. intros f Hf.
    apply filter_In in Hf as [Hf _]. auto.
Qed.

Lemma sound_fold_enter cfg files registry :
  sound cfg registry -> sound cfg (fold_left (enter cfg) files registry).
Proof.
  revert registry. induction files as [| file files IH]; intros registry H; [exact H |].
  cbn [fold_left]. apply IH. apply sound_enter. exact H.
Qed.

Section Reachable.

Variable browserQuery : string -> list nat -> list PreviewItem -> QueryResult.

Lemma run_preserves (P : Widget -> Prop) (actions : list Action) (w : Widget) :
  (forall v a, P v -> P (step browserQuery v a)) -> P w -> P (run browserQuery actions w).
Proof.
  intros Hstep. revert w.
  induction actions as [| a actions IH]; intros w Hw; [exact Hw |].
  cbn [run fold_left]. apply IH. apply Hstep. exact Hw.
Qed.

Lemma removeFile_calls fileName w :
  calls (fst (removeFile browserQuery fileName w)) = calls w
  \/ calls (fst (removeFile browserQuery fileName w)) = calls w ++ [onFileRemoved fileName].
Proof.
  unfold removeFile.
  destruct (querySelector _ _ _); simpl;
    repeat match goal with |- context [if ?b then _ else _] => destruct b end;
    simpl; auto.
Qed.

Lemma sound_step w a :
  sound (config w) (selectedFiles w) ->
  sound (config (step browserQuery w a)) (selectedFiles (step browserQuery w a)).
Proof.
  intros H. rewrite step_config.
  destruct a as [files | files | files | fileName | | c res]; cbn [step];
    unfold addFiles, drop, inputChange;
    rewrite ?handleFiles_enter, ?removeFile_registry, ?readerDone_registry;
    auto using sound_fold_enter, sound_filter.
  split; constructor.
Qed.

(** X1: in every widget reached from construction, no two registry
    entries have the same name and size, and every entry has an allowed type
    and a size within the limit. *)
Theorem registry_entries_unique_and_valid (cfg : Config) (actions : list Action) :
  let registry := selectedFiles (run browserQuery actions (fresh cfg)) in
  List.NoDup (map key registry)
  /\ Forall (fun f => includes (allowedTypes cfg) (type f) = true
                      /\ size f <= maxSizeMB cfg * 1024 * 1024) registry.
Proof.
  intros registry. subst registry.
  pose proof (run_preserves (fun v => config v = cfg /\ sound (config v) (selectedFiles v))
                actions (fresh cfg)) as H.
  destruct H as [Hcfg Hsound].
  - intros v a [Hv Hs]. split; [rewrite step_config; exact Hv | apply sound_step; exact Hs].
  - split; [reflexivity | split; constructor].
  - rewrite Hcfg in Hsound. exact Hsound.
Qed.

Lemma announced_outcome file w v :
  (forall f, In f (selectedFiles w) -> In (onFileAdded f) (calls w)) ->
  forall f, In f (selectedFiles (Policy.outcome file w v)) ->
            In (onFileAdded f) (calls (Policy.outcome file w v)).
Proof.
  intros H f. destruct v; cbn [Policy.outcome].
  - rewrite selectedFiles_call, calls_call. cbn [selectedFiles _createPreview setPreviewArea
      setElements setReaders setSelectedFiles calls].
    rewrite !in_app_iff. intros [Hf | [<- | []]]; [left; auto | right; left; reflexivity].
  - rewrite selectedFiles_call, calls_call, in_app_iff. auto.
  - auto.
Qed.

Lemma announced_handleFiles files w :
  (forall f, In f (selectedFiles w) -> In (onFileAdded f) (calls w)) ->
  forall f, In f (selectedFiles (_handleFiles files w)) ->
            In (onFileAdded f) (calls (_handleFiles files w)).
Proof.
  revert w. induction files as [| file files IH]; intros w H; [exact H |].
  cbn [_handleFiles fold_left]. apply IH. rewrite handleFile_outcome.
  apply announced_outcome. exact H.
Qed.

Lemma readerDone_calls c r w : calls (readerDone c r w) = calls w.
Proof. unfold readerDone. destruct (readerFile c w); reflexivity. Qed.

(** X2: in every widget reached from construction, each file of the
    registry has been handed to [onFileAdded]. *)
Theorem registry_files_were_announced (cfg : Config) (actions : list Action) (f : File) :
  let w := run browserQuery actions (fresh cfg) in
  In f (selectedFiles w) -> In (onFileAdded f) (calls w).
Proof.
  intros w. revert f. subst w.
  apply (run_preserves
           (fun v => forall f, In f (selectedFiles v) -> In (onFileAdded f) (calls v))).
  - intros v a Hv.
    destruct a as [files | files | files | fileName | | c res]; cbn [step];
      unfold addFiles, drop, inputChange; auto using announced_handleFiles.
    + intros f. rewrite removeFile_registry. intros Hf.
      apply filter_In in Hf as [Hf _]. apply Hv in Hf.
      destruct (removeFile_calls fileName v) as [-> | ->]; [exact Hf |].
      apply in_app_iff. left. exact Hf.
    + intros f []. 
    + intros f. rewrite readerDone_registry, readerDone_calls. apply Hv.
  - intros f [].
Qed.

End Reachable.

(** *** One batch *)

Lemma addedFiles_app cs cs' : addedFiles (cs ++ cs') = addedFiles cs ++ addedFiles cs'.
Proof. unfold addedFiles. apply omap_app. Qed.

Lemma removedNames_app cs cs' :
  removedNames (cs ++ cs') = removedNames cs ++ removedNames cs'.
Proof. unfold removedNames. apply omap_app. Qed.

Lemma handleFile_accounts file w :
  exists l,
    (l = [] \/ l = [file])
    /\ selectedFiles (handleFile file w) = selectedFiles w ++ l
    /\ addedFiles (calls (handleFile file w)) = addedFiles (calls w) ++ l
    /\ removedNames (calls (handleFile file w)) = removedNames (calls w)
    /\ (List.length (calls (handleFile file w)) <= List.length (calls w) + 1)%nat.
Proof.
  rewrite handleFile_outcome.
  destruct (Policy.validate file (config w) (selectedFiles w)); cbn [Policy.outcome].
  - exists [file]. rewrite selectedFiles_call, calls_call, addedFiles_app, removedNames_app,
      length_app.
    cbn. rewrite !app_nil_r. repeat split; auto; lia.
  - exists []. rewrite selectedFiles_call, calls_call, addedFiles_app, removedNames_app,
      length_app.
    cbn. rewrite !app_nil_r. repeat split; auto; lia.
  - exists []. rewrite !app_nil_r. repeat split; auto; lia.
Qed.

Lemma handleFiles_accounts (files : list File) (w : Widget) :
  exists l,
    sublist l files
    /\ selectedFiles (_handleFiles files w) = selectedFiles w ++ l
    /\ addedFiles (calls (_handleFiles files w)) = addedFiles (calls w) ++ l
    /\ removedNames (calls (_handleFiles files w)) = removedNames (calls w)
    /\ (List.length (calls (_handleFiles files w))
        <= List.length (calls w) + List.length files)%nat.
Proof.
  revert w.
  induction files as [| file files IH]; intros w.
  - exists []. cbn. rewrite !app_nil_r. repeat split; auto; lia.
  - cbn [_handleFiles fold_left].
    change (fold_left _ files (handleFile file w)) with (_handleFiles files (handleFile file w)).
    destruct (handleFile_accounts file w) as (l1 & Hl1 & Hreg1 & Hadd1 & Hrem1 & Hlen1).
    destruct (IH (handleFile file w)) as (l2 & Hsub & Hreg2 & Hadd2 & Hrem2 & Hlen2).
    exists (l1 ++ l2).
    rewrite Hreg2, Hadd2, Hrem2, Hreg1, Hadd1, Hrem1, <- !app_assoc.
    repeat split; auto.
    + destruct Hl1 as [-> | ->]; cbn [app].
      * apply sublist_cons. exact Hsub.
      * apply sublist_skip. exact Hsub.
    + cbn [List.length]. lia.
Qed.

(** X3: an intake appends to the registry some of its candidates, in the
    order of the batch; [onFileAdded] is called with exactly those files, in
    that order; [onFileRemoved] is not called; and there is at most one
    callback per candidate. *)
Theorem intake_accounts_for_each_candidate (files : list File) (w : Widget) :
  exists l,
    sublist l files
    /\ selectedFiles (addFiles files w) = selectedFiles w ++ l
    /\ addedFiles (calls (addFiles files w)) = addedFiles (calls w) ++ l
    /\ removedNames (calls (addFiles files w)) = removedNames (calls w)
    /\ (List.length (calls (addFiles files w))
        <= List.length (calls w) + List.length files)%nat.
Proof. apply handleFiles_accounts. Qed.

Lemma enter_cases cfg registry file :
  (stuck cfg registry file = true /\ enter cfg registry file = registry)
  \/ (stuck cfg registry file = false /\ enter cfg registry file = registry ++ [file]).
Proof.
  unfold stuck, enter.
  destruct (_ >=? _); [left; split; reflexivity |].
  destruct (truthyStr _); [left; split; reflexivity |].
  destruct (existsb _ _); [left | right]; split; reflexivity.
Qed.

Lemma stuck_grows cfg registry l file :
  stuck cfg registry file = true -> stuck cfg (registry ++ l) file = true.
Proof.
  unfold stuck. intros H.
  apply orb_true_iff in H as [H | H]; [apply orb_true_iff in H as [H | H] |].
  - rewrite Z.geb_leb in H. apply Z.leb_le in H.
    assert (Hfull : (Z.of_nat (List.length (registry ++ l)) >=? maxFiles cfg) = true).
    { rewrite Z.geb_leb. apply Z.leb_le. rewrite length_app. lia. }
    rewrite Hfull. reflexivity.
  - rewrite H, orb_true_r. reflexivity.
  - rewrite existsb_app, H, !orb_true_r. reflexivity.
Qed.

Lemma stuck_once_handled cfg registry file :
  stuck cfg (enter cfg registry file) file = true.
Proof.
  destruct (enter_cases cfg registry file) as [[H ->] | [_ ->]]; [exact H |].
  unfold stuck. rewrite existsb_app. cbn [existsb].
  rewrite sameNameAndSize_refl, !orb_true_r. reflexivity.
Qed.

Lemma stuck_enter cfg registry file g :
  stuck cfg registry file = true -> stuck cfg (enter cfg registry g) file = true.
Proof.
  intros H. destruct (enter_cases cfg registry g) as [[_ ->] | [_ ->]]; [exact H |].
  apply stuck_grows. exact H.
Qed.

Lemma stuck_fold cfg files registry file :
  stuck cfg registry file = true ->
  stuck cfg (fold_left (enter cfg) files registry) file = true.
Proof.
  revert registry. induction files as [| g files IH]; intros registry H; [exact H |].
  cbn [fold_left]. apply IH. apply stuck_enter. exact H.
Qed.

Lemma all_stuck_after cfg files registry :
  Forall (fun f => stuck cfg (fold_left (enter cfg) files registry) f = true) files.
Proof.
  revert registry. induction files as [| g files IH]; intros registry; [constructor |].
  cbn [fold_left]. constructor; [| apply IH].
  apply stuck_fold. apply stuck_once_handled.
Qed.

Lemma fold_enter_stuck cfg files registry :
  Forall (fun f => stuck cfg registry f = true) files ->
  fold_left (enter cfg) files registry = registry.
Proof.
  induction 1 as [| g files Hg _ IH]; [reflexivity |].
  cbn [fold_left].
  destruct (enter_cases cfg registry g) as [[_ ->] | [Hfree _]]; [exact IH | congruence].
Qed.

(** X4: handing the same batch to the intake a second time leaves the
    registry as the first intake left it. *)
Theorem intake_twice_same_registry (files : list File) (w : Widget) :
  selectedFiles (addFiles files (addFiles files w)) = selectedFiles (addFiles files w).
Proof.
  unfold addFiles. rewrite (handleFiles_enter files (_handleFiles files w)).
  rewrite config_handleFiles, handleFiles_enter.
  apply fold_enter_stuck. apply all_stuck_after.
Qed.

Lemma enter_invalid cfg registry file :
  truthyStr (_validateFile cfg file) = true -> enter cfg registry file = registry.
Proof.
  intros H. unfold enter. rewrite H. destruct (_ >=? _); reflexivity.
Qed.

Lemma fold_enter_filter cfg files registry :
  fold_left (enter cfg) files registry
  = fold_left (enter cfg)
      (List.filter (fun f => negb (truthyStr (_validateFile cfg f))) files) registry.
Proof.
  revert registry. induction files as [| f files IH]; intros registry; [reflexivity |].
  cbn [fold_left List.filter].
  destruct (truthyStr (_validateFile cfg f)) eqn:Hf; cbn [negb].
  - rewrite (enter_invalid _ _ _ Hf). apply IH.
  - cbn [fold_left]. apply IH.
Qed.

(** X5: the candidates that fail the type or size check have no part in
    what an intake does to the registry: the registry is the one that the
    intake of the other candidates alone gives.  And what an intake does to
    the registry depends on the configuration and the registry only: after
    [clearFiles] it is what the widget right after construction would get. *)
Theorem intake_ignores_invalid_candidates (files : list File) (w : Widget) :
  selectedFiles (addFiles files w)
  = selectedFiles
      (addFiles (List.filter (fun f => negb (truthyStr (_validateFile (config w) f))) files) w)
  /\ selectedFiles (addFiles files (clearFiles w))
     = selectedFiles (addFiles files (fresh (config w))).
Proof.
  unfold addFiles. rewrite !handleFiles_enter. split.
  - apply fold_enter_filter.
  - reflexivity.
Qed.

Lemma handleFiles_full (files : list File) (w : Widget) :
  maxFiles (config w) <= Z.of_nat (List.length (selectedFiles w)) ->
  selectedFiles (_handleFiles files w) = selectedFiles w
  /\ previewArea (_handleFiles files w) = previewArea w
  /\ calls (_handleFiles files w)
     = calls w ++ replicate (List.length files)
                    (onValidationFail
                       ("Maximum number of files (" +:+ numberToString (maxFiles (config w))
                        +:+ ") reached.")).
Proof.
  revert w. induction files as [| file files IH]; intros w Hfull.
  - cbn. rewrite app_nil_r. auto.
  - cbn [_handleFiles fold_left].
    change (fold_left _ files (handleFile file w)) with (_handleFiles files (handleFile file w)).
    rewrite (handleFile_full file w Hfull).
    destruct (IH (call (onValidationFail (Policy.reason (config w) file Policy.Capacity)) w))
      as (Hreg & Harea & Hcalls); [exact Hfull |].
    rewrite Hreg, Harea, Hcalls. cbn [List.length replicate].
    rewrite calls_call, <- app_assoc. repeat split.
Qed.

(** X6: on a widget whose registry is full, an intake admits nothing and
    attaches no preview, and it calls [onValidationFail] once for every
    candidate of the batch, each time with the capacity message. *)
Theorem intake_on_full_widget (files : list File) (w : Widget) :
  maxFiles (config w) <= Z.of_nat (List.length (selectedFiles w)) ->
  selectedFiles (addFiles files w) = selectedFiles w
  /\ previewArea (addFiles files w) = previewArea w
  /\ calls (addFiles files w)
     = calls w ++ replicate (List.length files)
                    (onValidationFail
                       ("Maximum number of files (" +:+ numberToString (maxFiles (config w))
                        +:+ ") reached.")).
Proof. intros Hfull. exact (handleFiles_full files w Hfull). Qed.

Lemma enter_blocked cfg file :
  maxFiles cfg <= 0 \/ allowedTypes cfg = [] -> enter cfg [] file = [].
Proof.
  intros [Hmax | Hnone]; unfold enter.
  - destruct (Z.geb_spec (Z.of_nat (List.length (@nil File))) (maxFiles cfg)) as [_ | Hlt];
      [reflexivity | simpl in Hlt; lia].
  - destruct (_ >=? _); [reflexivity |].
    unfold _validateFile. rewrite Hnone. reflexivity.
Qed.

Lemma fold_enter_blocked cfg files :
  maxFiles cfg <= 0 \/ allowedTypes cfg = [] -> fold_left (enter cfg) files [] = [].
Proof.
  intros H. induction files as [| f files IH]; [reflexivity |].
  cbn [fold_left]. rewrite (enter_blocked cfg f H). exact IH.
Qed.

Section Blocked.

Variable browserQuery : string -> list nat -> list PreviewItem -> QueryResult.

(** X7: a widget whose [maxFiles] is not positive, or whose [allowedTypes]
    is the empty list, never admits a file: whatever the operations, the
    registry stays empty and [onFileAdded] is never called. *)
Theorem nothing_admitted_when_blocked (cfg : Config) (actions : list Action) :
  maxFiles cfg <= 0 \/ allowedTypes cfg = [] ->
  let w := run browserQuery actions (fresh cfg) in
  selectedFiles w = [] /\ addedFiles (calls w) = [].
Proof.
  intros Hblocked w. subst w.
  pose proof (run_preserves browserQuery
                (fun v => config v = cfg /\ selectedFiles v = [] /\ addedFiles (calls v) = [])
                actions (fresh cfg)) as H.
  destruct H as (_ & Hreg & Hadded); [| repeat split | split; assumption].
  intros v a (Hcfg & Hreg & Hadded).
  split; [rewrite step_config; exact Hcfg |].
  destruct a as [files | files | files | fileName | | c res]; cbn [step];
    unfold addFiles, drop, inputChange.
  1-3: destruct (handleFiles_accounts files v) as (l & _ & Hl & Hadd & _);
    assert (Hempty : selectedFiles (_handleFiles files v) = [])
      by (rewrite handleFiles_enter, Hcfg, Hreg; apply fold_enter_blocked; exact Hblocked);
    rewrite Hl, Hreg in Hempty; cbn [app] in Hempty; subst l;
    rewrite Hadd, Hadded, Hl, Hreg; split; reflexivity.
  - rewrite removeFile_registry, Hreg. split; [reflexivity |].
    destruct (removeFile_calls browserQuery fileName v) as [-> | ->]; [exact Hadded |].
    rewrite addedFiles_app, Hadded. reflexivity.
  - split; [reflexivity | exact Hadded].
  - rewrite readerDone_registry, readerDone_calls. split; assumption.
Qed.

End Blocked.

(** *** The preview area against the registry *)

Lemma run_preserves_on (browserQuery : string -> list nat -> list PreviewItem -> QueryResult)
    (P : Widget -> Prop) (Q : Action -> Prop) (actions : list Action) (w : Widget) :
  (forall v a, Q a -> P v -> P (step browserQuery v a)) ->
  Forall Q actions -> P w -> P (run browserQuery actions w).
Proof.
  intros Hstep Hall. revert w.
  induction Hall as [| a actions Ha _ IH]; intros w Hw; [exact Hw |].
  cbn [run fold_left]. apply IH. apply Hstep; assumption.
Qed.

Lemma hasFileName_valid w v nid :
  hasFileName w v nid = true -> (nid < List.length (elements w))%nat.
Proof.
  unfold hasFileName. destruct (elements w !! nid) eqn:Hl; [| discriminate].
  intros _. apply lookup_lt_Some in Hl. exact Hl.
Qed.

Lemma dataFileName_readerHandlers file result it :
  dataFileName (readerHandlers file result it) = dataFileName it.
Proof. destruct result; reflexivity. Qed.

Lemma hasFileName_readerDone c result w v nid :
  hasFileName (readerDone c result w) v nid = hasFileName w v nid.
Proof.
  unfold readerDone. destruct (readerFile c w) as [file |]; [| reflexivity].
  unfold hasFileName. cbn [elements setElements setReaders].
  destruct (Nat.eq_dec c nid) as [-> | Hne].
  - rewrite list_lookup_alter_eq. destruct (elements w !! nid); [| reflexivity].
    cbn. rewrite dataFileName_readerHandlers. reflexivity.
  - rewrite list_lookup_alter_ne by exact Hne. reflexivity.
Qed.

Lemma everyEntryShown_outcome file w v :
  everyEntryShown w -> everyEntryShown (Policy.outcome file w v).
Proof.
  intros H. destruct v; cbn [Policy.outcome]; [| exact H | exact H].
  intros f. rewrite selectedFiles_call.
  cbn [selectedFiles _createPreview setPreviewArea setElements setReaders setSelectedFiles].
  intros Hf. apply in_app_iff in Hf as [Hf | [<- | []]].
  - destruct (H f Hf) as (nid & Hnid & Hname).
    exists nid. split; [cbn; apply in_app_iff; left; exact Hnid |].
    pose proof (hasFileName_valid _ _ _ Hname) as Hlt.
    unfold hasFileName in *. cbn. rewrite lookup_app_l by exact Hlt. exact Hname.
  - exists (List.length (elements w)). split; [cbn; apply in_app_iff; right; left; reflexivity |].
    unfold hasFileName. cbn.
    rewrite lookup_app_r by lia. rewrite Nat.sub_diag. cbn.
    destruct (String.eqb (type file) "application/pdf"); cbn; apply String.eqb_refl.
Qed.

Lemma everyEntryShown_handleFiles files w :
  everyEntryShown w -> everyEntryShown (_handleFiles files w).
Proof.
  revert w. induction files as [| file files IH]; intros w H; [exact H |].
  cbn [_handleFiles fold_left]. apply IH. rewrite handleFile_outcome.
  apply everyEntryShown_outcome. exact H.
Qed.

Section Shown.

Variable browserQuery : string -> list nat -> list PreviewItem -> QueryResult.

Lemma everyEntryShown_removeFile fileName w :
  Selector.plainName fileName = true ->
  everyEntryShown w -> everyEntryShown (fst (removeFile browserQuery fileName w)).
Proof.
  intros Hplain H.
  assert (Hcore : everyEntryShown
            (detachFirst fileName
               (setSelectedFiles
                  (List.filter (fun file => negb (String.eqb (name file) fileName))
                               (selectedFiles w)) w))).
  { intros f Hf.
    assert (Hf' : In f (List.filter (fun file => negb (String.eqb (name file) fileName))
                                    (selectedFiles w))).
    { unfold detachFirst in Hf. destruct (List.find _ _) in Hf; exact Hf. }
    apply filter_In in Hf' as [Hin Hne]. apply negb_true_iff in Hne.
    destruct (H f Hin) as (nid & Hnid & Hname).
    exists nid. unfold detachFirst.
    change (hasFileName (setSelectedFiles ?fs w)) with (hasFileName w).
    cbn [previewArea setSelectedFiles].
    destruct (List.find (hasFileName w fileName) (previewArea w)) as [c |] eqn:Hfind.
    - split; [| exact Hname]. cbn [previewArea setPreviewArea].
      apply filter_In. split; [exact Hnid |].
      apply negb_true_iff, Nat.eqb_neq. intros ->.
      apply find_some in Hfind as [_ Hc].
      unfold hasFileName in Hname, Hc. destruct (elements w !! c); [| discriminate].
      apply String.eqb_eq in Hname, Hc. rewrite Hname in Hc. rewrite Hc, String.eqb_refl in Hne.
      discriminate.
    - split; [exact Hnid | exact Hname]. }
  rewrite (removeFile_plain browserQuery fileName w Hplain). cbn zeta.
  destruct (existsb _ _); exact Hcore.
Qed.

(** X8: as long as [removeFile] is called with plain names, every file of
    the registry has a preview attached: in every widget reached from
    construction, each registry entry has a container in the preview area
    whose [data-file-name] is its name. *)
Theorem every_registry_entry_has_a_preview
    (cfg : Config) (actions : list Action) (f : File) :
  forallb plainRemoval actions = true ->
  let w := run browserQuery actions (fresh cfg) in
  In f (selectedFiles w) ->
  exists nid item,
    In nid (previewArea w) /\ elements w !! nid = Some item /\ dataFileName item = name f.
Proof.
  intros Hplain w Hf.
  assert (Hshown : everyEntryShown w).
  { subst w. apply (run_preserves_on browserQuery everyEntryShown
                      (fun a => plainRemoval a = true)).
    - intros v a Ha Hv.
      destruct a as [files | files | files | fileName | | c res]; cbn [step];
        unfold addFiles, drop, inputChange; auto using everyEntryShown_handleFiles.
      + apply everyEntryShown_removeFile; assumption.
      + intros g [].
      + intros g. rewrite readerDone_registry. intros Hg.
        destruct (Hv g Hg) as (nid & Hnid & Hname). exists nid.
        rewrite hasFileName_readerDone. split; [| exact Hname].
        unfold readerDone. destruct (readerFile c v); exact Hnid.
    - apply List.Forall_forall. intros a Ha.
      rewrite forallb_forall in Hplain. auto.
    - intros g []. }
  destruct (Hshown f Hf) as (nid & Hnid & Hname).
  unfold hasFileName in Hname. destruct (elements w !! nid) as [item |] eqn:Hitem; [| discriminate].
  exists nid, item.
  split; [exact Hnid | split; [exact Hitem | apply String.eqb_eq; exact Hname]].
Qed.

End Shown.

(** *** Preview area and registry in step *)

Lemma namesOf_cons es a rest it :
  es !! a = Some it -> namesOf es (a :: rest) = dataFileName it :: namesOf es rest.
Proof. intros H. unfold namesOf. cbn [omap list_omap]. rewrite H. reflexivity. Qed.

Lemma namesOf_in es area a it :
  In a area -> es !! a = Some it -> In (dataFileName it) (namesOf es area).
Proof.
  intros Hin Hit. induction area as [| b area IH]; [destruct Hin |].
  unfold namesOf in *. cbn [omap list_omap].
  destruct Hin as [-> | Hin].
  - rewrite Hit. left. reflexivity.
  - destruct (es !! b); [right |]; auto.
Qed.

Lemma namesOf_app_new es item area :
  Forall (fun nid => (nid < List.length es)%nat) area ->
  namesOf (es ++ [item]) (area ++ [List.length es]) = namesOf es area ++ [dataFileName item].
Proof.
  induction 1 as [| a area Ha _ IH].
  - unfold namesOf. cbn [app omap list_omap].
    rewrite lookup_app_r by lia. rewrite Nat.sub_diag. reflexivity.
  - destruct (lookup_lt_is_Some_2 es a Ha) as [it Hit].
    cbn [app]. rewrite (namesOf_cons (es ++ [item]) a _ it)
      by (rewrite lookup_app_l by exact Ha; exact Hit).
    rewrite (namesOf_cons es a _ it Hit), IH. reflexivity.
Qed.

Lemma namesOf_alter es (h : PreviewItem -> PreviewItem) c area :
  (forall it, dataFileName (h it) = dataFileName it) ->
  namesOf (alter h c es) area = namesOf es area.
Proof.
  intros Hh. induction area as [| a area IH]; [reflexivity |].
  unfold namesOf in *. cbn [omap list_omap].
  destruct (Nat.eq_dec c a) as [-> | Hne].
  - rewrite list_lookup_alter_eq. destruct (es !! a); cbn; [rewrite Hh |]; congruence.
  - rewrite list_lookup_alter_ne by exact Hne. destruct (es !! a); cbn; congruence.
Qed.

Lemma filter_all {A} (p : A -> bool) (l : list A) :
  (forall x, In x l -> p x = true) -> List.filter p l = l.
Proof.
  induction l as [| x l IH]; intros H; [reflexivity |].
  cbn [List.filter]. rewrite (H x) by (left; reflexivity).
  rewrite IH by (intros y Hy; apply H; right; exact Hy). reflexivity.
Qed.

Lemma namesOf_detach es n area :
  Forall (fun nid => (nid < List.length es)%nat) area ->
  List.NoDup (namesOf es area) ->
  let carries nid :=
    match es !! nid with Some it => String.eqb (dataFileName it) n | None => false end in
  namesOf es (match List.find carries area with
              | Some c => List.filter (fun nid => negb (Nat.eqb nid c)) area
              | None => area
              end)
  = List.filter (fun x => negb (String.eqb x n)) (namesOf es area).
Proof.
  intros Hvalid Hnodup carries.
  induction Hvalid as [| a area Ha Hvalid IH].
  - reflexivity.
  - destruct (lookup_lt_is_Some_2 es a Ha) as [it Hit].
    rewrite (namesOf_cons es a area it Hit) in Hnodup |- *.
    inversion Hnodup as [| x xs Hnotin Hrest]; subst.
    cbn [List.find List.filter]. unfold carries at 1. rewrite Hit.
    destruct (String.eqb (dataFileName it) n) eqn:Hn; cbn [negb].
    + apply String.eqb_eq in Hn. rewrite Nat.eqb_refl. cbn [negb].
      rewrite (filter_all (fun nid => negb (Nat.eqb nid a)) area).
      * rewrite filter_all; [reflexivity |].
        intros x Hx. apply negb_true_iff, String.eqb_neq. intros ->.
        apply Hnotin. rewrite Hn. exact Hx.
      * intros b Hb. apply negb_true_iff, Nat.eqb_neq. intros ->.
        apply Hnotin. apply (namesOf_in es area a it Hb Hit).
    + specialize (IH Hrest).
      destruct (List.find carries area) as [c |] eqn:Hfind.
      * assert (Hca : Nat.eqb a c = false).
        { apply Nat.eqb_neq. intros ->. apply find_some in Hfind as [_ Hc].
          unfold carries in Hc. rewrite Hit in Hc. congruence. }
        cbn [List.filter]. rewrite Hca. cbn [negb].
        rewrite (namesOf_cons es a _ it Hit). f_equal. exact IH.
      * rewrite (namesOf_cons es a _ it Hit). f_equal. exact IH.
Qed.

Lemma map_name_filter (n : string) (registry : list File) :
  map name (List.filter (fun file => negb (String.eqb (name file) n)) registry)
  = List.filter (fun x => negb (String.eqb x n)) (map name registry).
Proof.
  induction registry as [| f registry IH]; [reflexivity |].
  cbn [List.filter map]. destruct (String.eqb (name f) n); cbn [negb map]; congruence.
Qed.

Lemma inStep_outcome U file w v :
  nameTellsSize U -> In file U ->
  v = Policy.validate file (config w) (selectedFiles w) ->
  inStep U w -> inStep U (Policy.outcome file w v).
Proof.
  intros Htells HU Hv (Hvalid & Hnames & Hnodup & Hin).
  destruct v; cbn [Policy.outcome]; [| split; [| split; [| split]]; assumption
                                     | split; [| split; [| split]]; assumption].
  unfold inStep, shownNames, rendered in *.
  fold (namesOf (elements w) (previewArea w)) in Hnames.
  cbn [call _createPreview setPreviewArea setElements setReaders setSelectedFiles
       elements previewArea selectedFiles].
  set (item := if String.eqb (type file) "application/pdf" then _ else _).
  assert (Hitem : dataFileName item = name file)
    by (subst item; destruct (String.eqb (type file) "application/pdf"); reflexivity).
  split; [| split; [| split]].
  - apply Forall_app. split.
    + eapply List.Forall_impl; [| exact Hvalid]. cbn. intros a Ha. rewrite length_app. cbn. lia.
    + constructor; [rewrite length_app; cbn; lia | constructor].
  - fold (namesOf (elements w ++ [item]) (previewArea w ++ [List.length (elements w)])).
    rewrite (namesOf_app_new _ _ _ Hvalid), Hnames, Hitem, map_app. reflexivity.
  - rewrite map_app. apply List.NoDup_app; [exact Hnodup | constructor; [intros [] | constructor] |].
    intros x Hx [<- | []].
    apply in_map_iff in Hx as (g & Hg & Hgin).
    assert (Hsize : size g = size file).
    { apply Htells; [| exact HU | exact Hg].
      rewrite List.Forall_forall in Hin. auto. }
    assert (Hdup : existsb (sameNameAndSize file) (selectedFiles w) = true).
    { apply existsb_exists. exists g. split; [exact Hgin |].
      unfold sameNameAndSize. rewrite Hg, Hsize, String.eqb_refl, Z.eqb_refl. reflexivity. }
    symmetry in Hv. unfold Policy.validate, Policy.firstFailure, Policy.order in Hv.
    cbn [List.find] in Hv.
    destruct (Policy.fails _ _ _ Policy.Capacity); [discriminate |].
    destruct (Policy.fails _ _ _ Policy.TypeCheck); [discriminate |].
    destruct (Policy.fails _ _ _ Policy.SizeCheck); [discriminate |].
    change (Policy.fails (config w) (selectedFiles w) file Policy.DuplicateCheck)
      with (existsb (sameNameAndSize file) (selectedFiles w)) in Hv.
    rewrite Hdup in Hv. discriminate.
  - apply Forall_app. split; [exact Hin | constructor; [exact HU | constructor]].
Qed.

Lemma inStep_handleFiles U files w :
  nameTellsSize U -> (forall f, In f files -> In f U) ->
  inStep U w -> inStep U (_handleFiles files w).
Proof.
  intros Htells. revert w. induction files as [| file files IH]; intros w HU H; [exact H |].
  cbn [_handleFiles fold_left]. apply IH.
  - intros f Hf. apply HU. right. exact Hf.
  - rewrite handleFile_outcome.
    apply inStep_outcome; [exact Htells | apply HU; left; reflexivity | reflexivity | exact H].
Qed.

Section InStep.

Variable browserQuery : string -> list nat -> list PreviewItem -> QueryResult.

Lemma inStep_removeFile U fileName w :
  Selector.plainName fileName = true ->
  inStep U w -> inStep U (fst (removeFile browserQuery fileName w)).
Proof.
  intros Hplain (Hvalid & Hnames & Hnodup & Hin).
  assert (Hcore : inStep U
            (detachFirst fileName
               (setSelectedFiles
                  (List.filter (fun file => negb (String.eqb (name file) fileName))
                               (selectedFiles w)) w))).
  { unfold inStep, shownNames, rendered, detachFirst in *.
    fold (namesOf (elements w) (previewArea w)) in Hnames.
    change (hasFileName (setSelectedFiles ?fs w)) with (hasFileName w).
    cbn [previewArea setSelectedFiles].
    pose proof (namesOf_detach (elements w) fileName (previewArea w) Hvalid) as Hdetach.
    rewrite Hnames in Hdetach. specialize (Hdetach Hnodup). cbn zeta in Hdetach.
    change (fun nid => match elements w !! nid with
                       | Some it => String.eqb (dataFileName it) fileName
                       | None => false
                       end) with (hasFileName w fileName) in Hdetach.
    destruct (List.find (hasFileName w fileName) (previewArea w)) as [c |];
      cbn [previewArea setPreviewArea setSelectedFiles elements selectedFiles].
    - split; [| split; [| split]].
      + rewrite List.Forall_forall in *. intros a Ha. apply filter_In in Ha as [Ha _]. auto.
      + fold (namesOf (elements w)
                (List.filter (fun nid => negb (Nat.eqb nid c)) (previewArea w))).
        rewrite Hdetach, map_name_filter. reflexivity.
      + rewrite map_name_filter. apply List.NoDup_filter. exact Hnodup.
      + rewrite List.Forall_forall in *. intros f Hf. apply filter_In in Hf as [Hf _]. auto.
    - split; [| split; [| split]].
      + exact Hvalid.
      + fold (namesOf (elements w) (previewArea w)).
        rewrite Hdetach, map_name_filter. reflexivity.
      + rewrite map_name_filter. apply List.NoDup_filter. exact Hnodup.
      + rewrite List.Forall_forall in *. intros f Hf. apply filter_In in Hf as [Hf _]. auto. }
  rewrite (removeFile_plain browserQuery fileName w Hplain). cbn zeta.
  destruct (existsb _ _); exact Hcore.
Qed.

Lemma inStep_readerDone U c result w : inStep U w -> inStep U (readerDone c result w).
Proof.
  intros (Hvalid & Hnames & Hnodup & Hin).
  unfold readerDone. destruct (readerFile c w) as [file |];
    [| split; [| split; [| split]]; assumption].
  unfold inStep, shownNames, rendered in *.
  cbn [previewArea setElements setReaders elements selectedFiles].
  rewrite length_alter.
  split; [exact Hvalid | split; [| split; assumption]].
  fold (namesOf (alter (readerHandlers file result) c (elements w)) (previewArea w)).
  rewrite namesOf_alter by (intros it; apply dataFileName_readerHandlers).
  exact Hnames.
Qed.

(** X9: when, among the files offered to the widget, the name tells the
    size (no two offered files share a name with different sizes) and
    [removeFile] is called with plain names, the preview area and the
    registry stay in step: in every widget reached from construction the
    attached containers carry, in document order, exactly the names of the
    registry entries in registry order, and no name occurs twice. *)
Theorem preview_area_shows_the_registry (cfg : Config) (actions : list Action) :
  nameTellsSize (List.concat (map offered actions)) ->
  forallb plainRemoval actions = true ->
  let w := run browserQuery actions (fresh cfg) in
  shownNames w = map name (selectedFiles w)
  /\ List.NoDup (map name (selectedFiles w)).
Proof.
  intros Htells Hplain w.
  set (U := List.concat (map offered actions)) in *.
  assert (Hstep : inStep U w).
  { subst w. apply (run_preserves_on browserQuery (inStep U)
                      (fun a => plainRemoval a = true /\ forall f, In f (offered a) -> In f U)).
    - intros v a [Ha HU] Hv.
      destruct a as [files | files | files | fileName | | c res]; cbn [step];
        unfold addFiles, drop, inputChange; auto using inStep_handleFiles.
      + apply inStep_removeFile; assumption.
      + destruct Hv as (_ & _ & _ & _). repeat split; constructor.
      + apply inStep_readerDone. exact Hv.
    - apply List.Forall_forall. intros a Ha. split.
      + rewrite forallb_forall in Hplain. auto.
      + intros f Hf. subst U. apply in_concat. exists (offered a). split; [| exact Hf].
        apply in_map. exact Ha.
    - repeat split; constructor. }
  destruct Hstep as (_ & Hnames & Hnodup & _). split; assumption.
Qed.

End InStep.

(** *** [removeFile] whatever the name *)

Lemma scanString_plain_prefix (p rest acc : string) :
  Selector.plainName p = true ->
  Selector.scanString (p +:+ rest) acc = Selector.scanString rest (acc +:+ p).
Proof.
  revert acc. induction p as [| c p IH]; intros acc Hplain.
  - rewrite string_app_nil_r. reflexivity.
  - simpl in Hplain. apply andb_true_iff in Hplain as [Hc Hp].
    unfold Selector.plainChar in Hc. apply negb_true_iff in Hc.
    apply orb_false_iff in Hc as [Hc Hbrowser].
    apply orb_false_iff in Hc as [Hquote Hnewline].
    rewrite string_app_cons. cbn [Selector.scanString].
    rewrite Hquote, Hnewline, Hbrowser.
    rewrite (IH _ Hp), string_app_assoc. reflexivity.
Qed.

Lemma classify_breaking_name (p : string) (c : ascii) (tail : string) :
  Selector.plainName p = true ->
  breaks c tail = true ->
  Selector.classify (previewItemSelector (p +:+ String c tail)) = Selector.Invalid.
Proof.
  intros Hplain Hbreaks.
  unfold Selector.classify, previewItemSelector.
  change (Selector.stripPrefix Selector.attrOpen
            (Selector.attrOpen +:+ (p +:+ String c tail) +:+ Selector.attrClose))
    with (Some ((p +:+ String c tail) +:+ Selector.attrClose)).
  rewrite string_app_assoc, (scanString_plain_prefix p _ _ Hplain).
  rewrite string_app_cons. cbn [Selector.scanString].
  unfold breaks in Hbreaks.
  destruct (Ascii.eqb c Selector.dquote).
  - unfold Selector.afterString.
    destruct tail as [| d tail].
    + reflexivity.
    + rewrite string_app_cons. apply negb_true_iff in Hbreaks.
      assert (Hd : Ascii.eqb d "]" = false).
      { unfold Selector.mayFollowValue in Hbreaks.
        repeat (apply orb_false_iff in Hbreaks as [Hbreaks ?]). assumption. }
      rewrite Hd, Hbreaks. reflexivity.
  - rewrite Hbreaks. reflexivity.
Qed.


Section AnyName.

Variable browserQuery : string -> list nat -> list PreviewItem -> QueryResult.



(** X11: a name made of plain characters followed by a line break, or by
    a double quote that ends the name or is followed by a character other
    than white space, a closing bracket, [i], [I], [s], [S], a backslash or a
    slash, makes [removeFile] throw a [SyntaxError] once it has filtered the
    registry: the entries of that name are gone, no callback is called and
    nothing else of the widget has changed. *)
Theorem removeFile_throws_on_breaking_name
    (p : string) (c : ascii) (tail : string) (w : Widget) :
  Selector.plainName p = true ->
  breaks c tail = true ->
  let fileName := p +:+ String c tail in
  fst (removeFile browserQuery fileName w)
  = setSelectedFiles
      (List.filter (fun file => negb (String.eqb (name file) fileName)) (selectedFiles w)) w
  /\ exists message, snd (removeFile browserQuery fileName w) = Throw (SyntaxError message).
Proof.
  intros Hplain Hbreaks fileName. unfold removeFile, querySelector.
  fold fileName. subst fileName.
  rewrite (classify_breaking_name p c tail Hplain Hbreaks).
  split; [reflexivity | eexists; reflexivity].
Qed.

End AnyName.

(** *** The help text *)

Lemma prefix_app (p b : string) : String.prefix p (p +:+ b) = true.
Proof.
  induction p as [| x p IH]; [destruct b; reflexivity |].
  rewrite string_app_cons. cbn [String.prefix].
  destruct (ascii_dec x x); [exact IH | congruence].
Qed.

Lemma substring_rest (b : string) (m : nat) :
  (String.length b <= m)%nat -> substring 0 m b = b.
Proof.
  revert m. induction b as [| x b IH]; intros m Hm.
  - destruct m; reflexivity.
  - destruct m as [| m]; [simpl in Hm; lia |].
    cbn [substring]. rewrite IH by (simpl in Hm; lia). reflexivity.
Qed.

Lemma substring_drop (p b : string) (m : nat) :
  (String.length b <= m)%nat -> substring (String.length p) m (p +:+ b) = b.
Proof.
  intros Hm. induction p as [| x p IH].
  - apply substring_rest. exact Hm.
  - rewrite string_app_cons. cbn [String.length substring]. exact IH.
Qed.

Lemma replaceFirst_at (p0 : ascii) (prest rep a b : string) :
  occurs p0 a = false ->
  replaceFirst (String p0 prest) rep (a +:+ String p0 prest +:+ b) = a +:+ rep +:+ b.
Proof.
  intros Ha. induction a as [| x a IH].
  - change ("" +:+ String p0 prest +:+ b) with (String p0 prest +:+ b).
    change ("" +:+ rep +:+ b) with (rep +:+ b).
    rewrite string_app_cons. cbn [replaceFirst].
    rewrite <- string_app_cons, prefix_app.
    rewrite substring_drop by (rewrite string_length_app; lia). reflexivity.
  - cbn [occurs] in Ha. apply orb_false_iff in Ha as [Hx Ha].
    rewrite (string_app_cons x a (String p0 prest +:+ b)), (string_app_cons x a (rep +:+ b)).
    cbn [replaceFirst String.prefix].
    destruct (ascii_dec p0 x) as [-> | _]; [rewrite Ascii.eqb_refl in Hx; discriminate |].
    rewrite (IH Ha). reflexivity.
Qed.

Lemma occurs_app (c : ascii) (a b : string) : occurs c (a +:+ b) = occurs c a || occurs c b.
Proof.
  induction a as [| x a IH]; [reflexivity |].
  rewrite string_app_cons. cbn [occurs]. rewrite IH, orb_assoc. reflexivity.
Qed.

Lemma pretty_N_char_no_brace (d : N) : Ascii.eqb (pretty_N_char d) "{" = false.
Proof. unfold pretty_N_char. repeat case_match; reflexivity. Qed.

Lemma pretty_N_go_no_brace (x : N) (s : string) :
  occurs "{" s = false -> occurs "{" (pretty_N_go x s) = false.
Proof.
  revert s. induction (N.lt_wf_0 x) as [x _ IH]. intros s Hs.
  destruct (N.eq_dec x 0) as [-> | Hx].
  - rewrite pretty_N_go_0. exact Hs.
  - rewrite pretty_N_go_step by lia. apply IH.
    + apply N.div_lt; lia.
    + cbn [occurs]. rewrite pretty_N_char_no_brace, Hs. reflexivity.
Qed.

Lemma numberToString_no_brace (z : Z) : occurs "{" (numberToString z) = false.
Proof.
  destruct z as [| p | p]; [reflexivity | |];
    unfold numberToString, pretty, pretty_Z, pretty, pretty_positive, pretty, pretty_N;
    rewrite decide_False by discriminate.
  - apply pretty_N_go_no_brace. reflexivity.
  - rewrite occurs_app, pretty_N_go_no_brace by reflexivity. reflexivity.
Qed.

Lemma constructor_helpText (document : list string) (o : Options.t) (w : Widget) :
  constructor document o = Normal w ->
  truthyStr (optHelpText o) = true
  /\ helpText (labels (config w))
     = replaceFirst "{maxSize}" (numberToString (maxSizeMB (config w)))
         (replaceFirst "{maxFiles}" (numberToString (maxFiles (config w)))
            (default "" (optHelpText o))).
Proof.
  unfold constructor.
  destruct (truthyStr (Options.containerId o)); [| discriminate].
  destruct (includes document _); [| discriminate].
  destruct (truthyStr (optHelpText o)); [| discriminate].
  cbn [negb bind]. intros [= <-]. split; reflexivity.
Qed.

(** X12: when construction succeeds with a help text that reads
    [a{maxFiles}b{maxSize}c], where [a] and [b] hold no opening brace, and
    the effective [maxFiles] and [maxSizeMB] (the defaults included) are
    integers below [2 ^ 53] in absolute value, the help text of the widget is
    [a], the digits of [maxFiles], [b], the digits of [maxSizeMB], [c]. *)
Theorem helpText_placeholders_are_filled
    (document : list string) (o : Options.t) (w : Widget) (a b c : string) :
  constructor document o = Normal w ->
  optHelpText o = Some (a +:+ "{maxFiles}" +:+ b +:+ "{maxSize}" +:+ c) ->
  occurs "{" a = false ->
  occurs "{" b = false ->
  isSafeInteger (maxFiles (config w)) = true ->
  isSafeInteger (maxSizeMB (config w)) = true ->
  helpText (labels (config w))
  = a +:+ numberToString (maxFiles (config w)) +:+ b
    +:+ numberToString (maxSizeMB (config w)) +:+ c.
Proof.
  intros Hw Htext Ha Hb _ _.
  apply constructor_helpText in Hw as [_ ->]. rewrite Htext. cbn [default id].
  rewrite (replaceFirst_at "{" "maxFiles}" _ a _ Ha).
  rewrite <- !string_app_assoc.
  rewrite (string_app_assoc _ "{maxSize}" c).
  rewrite (replaceFirst_at "{" "maxSize}").
  - rewrite !string_app_assoc. reflexivity.
  - rewrite !occurs_app, Ha, Hb, numberToString_no_brace. reflexivity.
Qed.

(** *** [_truncateFilename] *)

Lemma splitAcc_no_separator (sep : ascii) (cur s : string) :
  occurs sep s = false -> splitAcc sep cur s = [cur +:+ s].
Proof.
  revert cur. induction s as [| x s IH]; intros cur Hs.
  - cbn [splitAcc]. rewrite string_app_nil_r. reflexivity.
  - cbn [occurs] in Hs. apply orb_false_iff in Hs as [Hx Hs].
    cbn [splitAcc]. rewrite Hx, (IH _ Hs), string_app_assoc. reflexivity.
Qed.

Lemma substring_length_le (n m : nat) (s : string) :
  (String.length (substring n m s) <= m)%nat.
Proof.
  revert n m. induction s as [| x s IH]; intros n m.
  - destruct n, m; cbn; lia.
  - destruct n as [| n]; cbn [substring].
    + destruct m as [| m]; [cbn; lia |]. cbn [String.length]. specialize (IH 0%nat m). lia.
    + apply IH.
Qed.

Lemma substring_of_substring (m k : nat) (s : string) :
  (m <= k)%nat -> substring 0 m (substring 0 k s) = substring 0 m s.
Proof.
  revert m k. induction s as [| x s IH]; intros m k Hmk.
  - destruct k, m; reflexivity.
  - destruct m as [| m]; [destruct k; reflexivity |].
    destruct k as [| k]; [lia |].
    cbn [substring]. rewrite IH by lia. reflexivity.
Qed.

(** X13: of a name made of ASCII characters, [_truncateFilename] returns
    a name of at most 15 characters, and a name without a dot, as it is.
    When it changes the name, the result is the first 12 characters of the
    name, three dots, and a dot with the text after the last dot of the name
    when that text is not empty.  The result is at most two characters longer
    than the name. *)
Theorem truncateFilename_shape (filename : string) :
  isAscii filename = true ->
  let extension := List.last (split "." filename) "" in
  ((String.length filename <= 15)%nat -> _truncateFilename filename = filename)
  /\ (occurs "." filename = false -> _truncateFilename filename = filename)
  /\ (_truncateFilename filename <> filename ->
      _truncateFilename filename
      = substring 0 12 filename +:+ "..."
        +:+ (if String.eqb extension "" then "" else "." +:+ extension))
  /\ (String.length (_truncateFilename filename) <= String.length filename + 2)%nat.
Proof.
  intros _ extension. unfold _truncateFilename, lastSegment. fold extension.
  set (nameWithoutExt :=
         substring 0 (String.length filename - String.length extension - 1) filename).
  split; [| split; [| split]].
  - intros Hshort. apply Nat.leb_le in Hshort. rewrite Hshort. reflexivity.
  - intros Hnodot. destruct (_ <=? 15)%nat; [reflexivity |].
    assert (Hext : extension = filename).
    { subst extension. unfold split. rewrite (splitAcc_no_separator _ _ _ Hnodot). reflexivity. }
    assert (Hnw : nameWithoutExt = "").
    { subst nameWithoutExt. rewrite Hext.
      replace (String.length filename - String.length filename - 1)%nat with 0%nat by lia.
      destruct filename; reflexivity. }
    rewrite Hnw. reflexivity.
  - destruct (_ <=? 15)%nat; [congruence |].
    destruct (Nat.leb_spec (String.length nameWithoutExt) (15 - 3)) as [| Hlong]; [congruence |].
    intros _. f_equal.
    subst nameWithoutExt. apply substring_of_substring.
    pose proof (substring_length_le 0
                  (String.length filename - String.length extension - 1) filename).
    cbn in Hlong. lia.
  - destruct (_ <=? 15)%nat; [lia |].
    destruct (Nat.leb_spec (String.length nameWithoutExt) (15 - 3)) as [| Hlong]; [lia |].
    pose proof (substring_length_le 0
                  (String.length filename - String.length extension - 1) filename) as Hnw.
    fold nameWithoutExt in Hnw.
    pose proof (substring_length_le 0 (15 - 3) nameWithoutExt) as Hhead.
    rewrite !string_length_app.
    assert (Htail : (String.length (if String.eqb extension "" then ""
                                    else "." +:+ extension)
                     <= 1 + String.length extension)%nat).
    { destruct (String.eqb extension ""); [cbn; lia |].
      rewrite string_length_app. cbn. lia. }
    change (15 - 3)%nat with 12%nat in *. cbn [String.length] in *. lia.
Qed.

(** *** A read that fails *)

(** X14: when the read of a file fails, its container loses what it held,
    the remove button included: it holds the text [Error loading preview]
    followed by an image without source, and gains the error class.  The
    file stays in the registry, the container stays attached, no callback is
    called, and the reader is no longer pending. *)
Theorem failed_read_replaces_the_preview
    (c : nat) (file : File) (it : PreviewItem) (w : Widget) :
  readerFile c w = Some file ->
  elements w !! c = Some it ->
  let w' := readerDone c Failed w in
  elements w' !! c
  = Some (mkPreviewItem (dataFileName it)
            (classList it ++ ["file-upload-sdk-preview-error"])
            [TextNode "Error loading preview";
             Img None ("Preview of " +:+ name file) (name file)])
  /\ selectedFiles w' = selectedFiles w
  /\ previewArea w' = previewArea w
  /\ calls w' = calls w
  /\ readerFile c w' = None.
Proof.
  intros Hreader Hit w'. subst w'. unfold readerDone. rewrite Hreader.
  cbn [elements setElements setReaders selectedFiles previewArea calls].
  rewrite list_lookup_alter_eq, Hit.
  repeat split; try reflexivity.
  unfold readerFile. cbn [readers setElements setReaders].
  rewrite find_filter_none. reflexivity.
Qed.

(** *** A file just over the limit *)

Lemma hundredths_just_over (m d : Z) :
  0 <= d <= 5242 -> hundredths (m * 1024 * 1024 + d) = 100 * m.
Proof.
  intros Hd. unfold hundredths. symmetry.
  apply (Z.div_unique _ _ _ (200 * d + 2 ^ 20)); lia.
Qed.

(** X15: a file that exceeds a limit of [m] megabytes by at most 5242
    bytes is rejected with a message that prints its size as [m.00 MB],
    the same figure as the maximum it is said to exceed. *)
Theorem barely_oversized_file_message (f : File) (d : Z) (w : Widget) :
  0 <= maxSizeMB (config w) ->
  0 < d <= 5242 ->
  size f = maxSizeMB (config w) * 1024 * 1024 + d ->
  Z.of_nat (List.length (selectedFiles w)) < maxFiles (config w) ->
  includes (allowedTypes (config w)) (type f) = true ->
  addFiles [f] w
  = call (onValidationFail
            ("File is too large: " +:+ name f +:+ " ("
             +:+ numberToString (maxSizeMB (config w)) +:+ ".00 MB). Maximum size is "
             +:+ numberToString (maxSizeMB (config w)) +:+ " MB.")) w.
Proof.
  intros Hm Hd Hsize Hroom Hallowed.
  unfold addFiles, _handleFiles. cbn [fold_left]. unfold handleFile.
  rewrite Z.geb_leb.
  destruct (Z.leb_spec (maxFiles (config w)) (Z.of_nat (List.length (selectedFiles w))));
    [lia |].
  unfold _validateFile. rewrite Hallowed. cbn [negb].
  destruct (Z.gtb_spec (size f) (maxSizeMB (config w) * 1024 * 1024)); [| lia].
  cbn [truthyStr default]. 
  assert (Hprint : mbToFixed2 (size f) = numberToString (maxSizeMB (config w)) +:+ ".00").
  { rewrite mbToFixed2_two_decimals by lia.
    rewrite Hsize, hundredths_just_over by lia.
    replace (100 * maxSizeMB (config w) / 100) with (maxSizeMB (config w))
      by (symmetry; rewrite Z.mul_comm; apply Z.div_mul; lia).
    replace (100 * maxSizeMB (config w) / 10 mod 10) with 0.
    2:{ replace (100 * maxSizeMB (config w)) with (10 * maxSizeMB (config w) * 10) by lia.
        rewrite Z.div_mul by lia. rewrite Z.mul_comm, Z.mod_mul by lia. reflexivity. }
    replace (100 * maxSizeMB (config w) mod 10) with 0.
    2:{ replace (100 * maxSizeMB (config w)) with (10 * maxSizeMB (config w) * 10) by lia.
        rewrite Z.mod_mul by lia. reflexivity. }
    reflexivity. }
  rewrite Hprint.
  rewrite (string_app_assoc (numberToString (maxSizeMB (config w))) ".00").
  reflexivity.
Qed.

(** *** The labels of [_getAllowedTypesString] *)

Lemma splitAcc_at_separator (sep : ascii) (cur a rest : string) :
  occurs sep a = false ->
  splitAcc sep cur (a +:+ String sep rest) = (cur +:+ a) :: splitAcc sep "" rest.
Proof.
  revert cur. induction a as [| x a IH]; intros cur Ha.
  - change ("" +:+ String sep rest) with (String sep rest).
    cbn [splitAcc]. rewrite Ascii.eqb_refl, string_app_nil_r. reflexivity.
  - cbn [occurs] in Ha. apply orb_false_iff in Ha as [Hx Ha].
    rewrite string_app_cons. cbn [splitAcc]. rewrite Hx, (IH _ Ha), string_app_assoc.
    reflexivity.
Qed.

Lemma toUpperCase_empty (b : string) : toUpperCase b = "" -> b = "".
Proof. destruct b; [reflexivity | discriminate]. Qed.

(** X16: in the text of the allowed types, a type with nothing after its
    only slash is shown as it is; a type that is not one of the six listed
    ones and that has a subtype of ASCII characters (the text, not empty,
    between its first slash and its second one or its end) is shown by that
    subtype in upper case. *)
Theorem typeLabel_of_unlisted_mime_type :
  (forall a, occurs "/" a = false -> typeLabel (a +:+ "/") = a +:+ "/")
  /\ (forall a b rest,
        occurs "/" a = false -> occurs "/" b = false -> b <> "" -> isAscii b = true ->
        typeMapLookup typeMap (a +:+ "/" +:+ b) = None ->
        typeLabel (a +:+ "/" +:+ b) = toUpperCase b
        /\ (typeMapLookup typeMap (a +:+ "/" +:+ b +:+ "/" +:+ rest) = None ->
            typeLabel (a +:+ "/" +:+ b +:+ "/" +:+ rest) = toUpperCase b)).
Proof.
  split.
  - intros a Ha.
    assert (Hsplit : split "/" (a +:+ "/") = [a; ""]).
    { unfold split. change (a +:+ "/") with (a +:+ String "/" "").
      rewrite (splitAcc_at_separator _ _ _ _ Ha). reflexivity. }
    unfold typeLabel.
    destruct (typeMapLookup typeMap (a +:+ "/")) as [v |] eqn:Hv.
    + exfalso. unfold typeMap in Hv. cbn [typeMapLookup] in Hv.
      repeat match type of Hv with
             | context [String.eqb ?t ?k] =>
                 destruct (String.eqb_spec t k) as [He | _];
                 [rewrite He in Hsplit; vm_compute in Hsplit; discriminate Hsplit |]
             end.
      discriminate Hv.
    + rewrite Hsplit. reflexivity.
  - intros a b rest Ha Hb Hne _ Hnone.
    assert (Hup : String.eqb (toUpperCase b) "" = false).
    { apply String.eqb_neq. intros H. apply toUpperCase_empty in H. contradiction. }
    split.
    + unfold typeLabel. rewrite Hnone. unfold split.
      change (a +:+ "/" +:+ b) with (a +:+ String "/" b).
      rewrite (splitAcc_at_separator _ _ _ _ Ha), (splitAcc_no_separator _ _ _ Hb).
      cbn [lookup list_lookup]. change ("" +:+ b) with b. rewrite Hup. reflexivity.
    + intros Hnone'. unfold typeLabel. rewrite Hnone'. unfold split.
      change (a +:+ "/" +:+ b +:+ "/" +:+ rest) with (a +:+ String "/" (b +:+ String "/" rest)).
      rewrite (splitAcc_at_separator _ _ _ _ Ha), (splitAcc_at_separator _ _ _ _ Hb).
      cbn [lookup list_lookup]. change ("" +:+ b) with b. rewrite Hup. reflexivity.
Qed.

(** *** The further properties at concrete inputs *)

Lemma registry_files_were_announced_witness :
  let actions := [AddFiles [Fixture.png "a.png" 1; Fixture.png "b.png" 2]; RemoveFile "a.png"] in
  let w := run Fixture.findsNothing actions (fresh Fixture.scenario) in
  In (Fixture.png "b.png" 2) (selectedFiles w)
  /\ In (onFileAdded (Fixture.png "b.png" 2)) (calls w).
Proof.
  intros actions w.
  assert (Hin : In (Fixture.png "b.png" 2) (selectedFiles w)) by (left; reflexivity).
  split; [exact Hin |].
  exact (registry_files_were_announced Fixture.findsNothing Fixture.scenario actions
           (Fixture.png "b.png" 2) Hin).
Defined.

Lemma intake_on_full_widget_witness :
  let w := addFiles [Fixture.png "a.png" 1; Fixture.png "b.png" 2] (fresh Fixture.scenario) in
  let files := [Fixture.png "c.png" 3; Fixture.png "d.png" 4; Fixture.png "a.png" 1] in
  maxFiles (config w) <= Z.of_nat (List.length (selectedFiles w))
  /\ selectedFiles (addFiles files w) = selectedFiles w
  /\ calls (addFiles files w)
     = calls w ++ replicate 3 (onValidationFail "Maximum number of files (2) reached.").
Proof.
  intros w files.
  assert (Hfull : maxFiles (config w) <= Z.of_nat (List.length (selectedFiles w)))
    by (vm_compute; discriminate).
  split; [exact Hfull |].
  destruct (intake_on_full_widget files w Hfull) as (Hreg & _ & Hcalls).
  split; [exact Hreg | exact Hcalls].
Defined.

Lemma nothing_admitted_when_blocked_witness :
  let cfg := Fixture.policy 5 2 [] in
  let actions := [AddFiles [Fixture.png "a.png" 1]; Drop [mkFile "b" 2 ""]] in
  (maxFiles cfg <= 0 \/ allowedTypes cfg = [])
  /\ selectedFiles (run Fixture.findsNothing actions (fresh cfg)) = []
  /\ addedFiles (calls (run Fixture.findsNothing actions (fresh cfg))) = [].
Proof.
  intros cfg actions.
  assert (Hblocked : maxFiles cfg <= 0 \/ allowedTypes cfg = []) by (right; reflexivity).
  split; [exact Hblocked |].
  exact (nothing_admitted_when_blocked Fixture.findsNothing cfg actions Hblocked).
Defined.

Lemma every_registry_entry_has_a_preview_witness :
  let cfg := Fixture.policy 5 2 ["image/png"] in
  let actions :=
    [AddFiles [Fixture.png "a.png" 1; Fixture.png "a.png" 2; Fixture.png "b.png" 3];
     RemoveFile "b.png"; AddFiles [Fixture.png "b.png" 4]] in
  let w := run Fixture.findsNothing actions (fresh cfg) in
  forallb plainRemoval actions = true
  /\ In (Fixture.png "b.png" 4) (selectedFiles w)
  /\ exists nid item,
       In nid (previewArea w) /\ elements w !! nid = Some item
       /\ dataFileName item = "b.png".
Proof.
  intros cfg actions w.
  assert (Hplain : forallb plainRemoval actions = true) by reflexivity.
  assert (Hin : In (Fixture.png "b.png" 4) (selectedFiles w))
    by (right; right; left; reflexivity).
  split; [exact Hplain |]. split; [exact Hin |].
  exact (every_registry_entry_has_a_preview Fixture.findsNothing cfg actions
           (Fixture.png "b.png" 4) Hplain Hin).
Defined.

Lemma preview_area_shows_the_registry_witness :
  let cfg := Fixture.policy 5 2 ["image/png"; "application/pdf"] in
  let actions :=
    [AddFiles [Fixture.png "a.png" 1; mkFile "b.pdf" 2 "application/pdf"];
     RemoveFile "a.png";
     Drop [Fixture.png "c.png" 3; Fixture.png "a.png" 1];
     ReaderDone 0 Failed] in
  let w := run Fixture.findsNothing actions (fresh cfg) in
  nameTellsSize (List.concat (map offered actions))
  /\ forallb plainRemoval actions = true
  /\ map name (selectedFiles w) = ["b.pdf"; "c.png"; "a.png"]
  /\ shownNames w = map name (selectedFiles w).
Proof.
  intros cfg actions w.
  assert (Htells : nameTellsSize (List.concat (map offered actions))).
  { intros f g Hf Hg. simpl in Hf, Hg.
    repeat (destruct Hf as [<- | Hf]); try destruct Hf;
      repeat (destruct Hg as [<- | Hg]); try destruct Hg;
      simpl; intros Hname; first [reflexivity | discriminate Hname]. }
  assert (Hplain : forallb plainRemoval actions = true) by reflexivity.
  split; [exact Htells |]. split; [exact Hplain |]. split; [reflexivity |].
  destruct (preview_area_shows_the_registry Fixture.findsNothing cfg actions Htells Hplain)
    as [Hshown _].
  exact Hshown.
Defined.

Lemma removeFile_throws_on_breaking_name_witness :
  let w := addFiles [Fixture.png Fixture.quotedName 10] (fresh Fixture.scenario) in
  Selector.plainName "a" = true
  /\ breaks Selector.dquote "b.png" = true
  /\ Js.isThrow (snd (removeFile Fixture.findsNothing Fixture.quotedName w)) = true
  /\ selectedFiles (fst (removeFile Fixture.findsNothing Fixture.quotedName w)) = [].
Proof.
  intros w.
  assert (Hplain : Selector.plainName "a" = true) by reflexivity.
  assert (Hbreaks : breaks Selector.dquote "b.png" = true) by reflexivity.
  split; [exact Hplain |]. split; [exact Hbreaks |].
  pose proof (removeFile_throws_on_breaking_name Fixture.findsNothing
                "a" Selector.dquote "b.png" w Hplain Hbreaks) as H.
  cbv zeta in H. change ("a" +:+ String Selector.dquote "b.png") with Fixture.quotedName in H.
  destruct H as (Hfst & message & Hsnd).
  rewrite Hfst, Hsnd. split; reflexivity.
Defined.

Lemma helpText_placeholders_are_filled_witness :
  let o := withMaxFiles NumAbsent Fixture.demo in
  exists w,
    constructor ["uploader"] o = Normal w
    /\ optHelpText o
       = Some ("Upload up to " +:+ "{maxFiles}" +:+ " files (max " +:+ "{maxSize}"
               +:+ "MB each)")
    /\ isSafeInteger (maxFiles (config w)) = true
    /\ isSafeInteger (maxSizeMB (config w)) = true
    /\ helpText (labels (config w)) = "Upload up to 10 files (max 2MB each)".
Proof.
  intros o.
  destruct (constructor ["uploader"] o) as [w |] eqn:Hw; [| discriminate Hw].
  exists w.
  assert (Htext : optHelpText o
                  = Some ("Upload up to " +:+ "{maxFiles}" +:+ " files (max " +:+ "{maxSize}"
                          +:+ "MB each)")) by reflexivity.
  assert (Hfiles : isSafeInteger (maxFiles (config w)) = true)
    by (injection Hw as <-; reflexivity).
  assert (Hsize : isSafeInteger (maxSizeMB (config w)) = true)
    by (injection Hw as <-; reflexivity).
  split; [reflexivity |]. split; [exact Htext |].
  split; [exact Hfiles |]. split; [exact Hsize |].
  rewrite (helpText_placeholders_are_filled ["uploader"] o w
             "Upload up to " " files (max " "MB each)" Hw Htext eq_refl eq_refl Hfiles Hsize).
  injection Hw as <-. reflexivity.
Defined.

Lemma failed_read_replaces_the_preview_witness :
  let f := Fixture.png "a.png" 1 in
  let w := addFiles [f] (fresh Fixture.scenario) in
  let w' := readerDone 0 Failed w in
  readerFile 0 w = Some f
  /\ (children <$> elements w !! 0%nat) = Some [RemoveBtn "Remove a.png"]
  /\ (children <$> elements w' !! 0%nat)
     = Some [TextNode "Error loading preview"; Img None "Preview of a.png" "a.png"]
  /\ selectedFiles w' = [f].
Proof.
  intros f w w'.
  assert (Hreader : readerFile 0 w = Some f) by reflexivity.
  assert (Hit : elements w !! 0%nat
                = Some (mkPreviewItem "a.png" ["file-upload-sdk-preview-item"]
                          [RemoveBtn "Remove a.png"])) by reflexivity.
  split; [exact Hreader |]. split; [rewrite Hit; reflexivity |].
  destruct (failed_read_replaces_the_preview 0 f _ w Hreader Hit) as (Hc & Hreg & _).
  subst w'. rewrite Hc, Hreg. split; reflexivity.
Defined.

Lemma barely_oversized_file_message_witness :
  let f := Fixture.png "big.png" 1048577 in
  let w := fresh Fixture.scenario in
  size f = maxSizeMB (config w) * 1024 * 1024 + 1
  /\ calls (addFiles [f] w)
     = [onValidationFail "File is too large: big.png (1.00 MB). Maximum size is 1 MB."].
Proof.
  intros f w.
  assert (Hsize : size f = maxSizeMB (config w) * 1024 * 1024 + 1) by reflexivity.
  split; [exact Hsize |].
  rewrite (barely_oversized_file_message f 1 w); [reflexivity | | | exact Hsize | | ].
  - vm_compute. discriminate.
  - lia.
  - reflexivity.
  - reflexivity.
Defined.

Lemma removeFile_plain_reports_witness :
  let w := addFiles [Fixture.png "a.png" 1; Fixture.png "b.png" 2] (fresh Fixture.scenario) in
  let w' := fst (removeFile Fixture.findsNothing "a.png" w) in
  Selector.plainName "a.png" = true
  /\ snd (removeFile Fixture.findsNothing "a.png" w) = Normal true
  /\ calls w' = calls w ++ [onFileRemoved "a.png"]
  /\ snd (removeFile Fixture.findsNothing "a.png" w') = Normal false.
Proof.
  intros w w'.
  assert (Hplain : Selector.plainName "a.png" = true) by reflexivity.
  split; [exact Hplain |].
  exact (removeFile_plain_reports Fixture.findsNothing "a.png" w Hplain).
Defined.

Lemma truncateFilename_shape_witness :
  let filename := "holiday-photograph-2024.jpeg" in
  isAscii filename = true
  /\ _truncateFilename filename = "holiday-phot....jpeg"
  /\ _truncateFilename "a.png" = "a.png".
Proof.
  intros filename.
  assert (Hascii : isAscii filename = true) by reflexivity.
  assert (Hshort : isAscii "a.png" = true) by reflexivity.
  split; [exact Hascii |].
  destruct (truncateFilename_shape filename Hascii) as (_ & _ & Hcut & _).
  destruct (truncateFilename_shape "a.png" Hshort) as (Hkept & _).
  split; [| apply Hkept; vm_compute; lia].
  rewrite Hcut; [reflexivity |]. vm_compute. discriminate.
Defined.

Lemma typeLabel_of_unlisted_mime_type_witness :
  occurs "/" "text" = false /\ occurs "/" "plain" = false /\ isAscii "plain" = true
  /\ typeMapLookup typeMap ("text" +:+ "/" +:+ "plain") = None
  /\ typeLabel "text/plain" = "PLAIN"
  /\ typeLabel "text/plain/x" = "PLAIN"
  /\ typeLabel "text/" = "text/".
Proof.
  destruct typeLabel_of_unlisted_mime_type as (Hbare & Hsub).
  do 4 (split; [reflexivity |]).
  destruct (Hsub "text" "plain" "x" eq_refl eq_refl ltac:(discriminate) eq_refl eq_refl)
    as [Hone Htwo].
  split; [exact Hone |]. split; [exact (Htwo eq_refl) | exact (Hbare "text" eq_refl)].
Defined.
